(** * FilterList: row flattening, selection reconciliation and navigation

    A shallow embedding of [app/src/ui/lib/filter-list.tsx].

    - Strings are sequences of code units below 256 (Rocq's [string]);
      [toLowerCase] and the regular expression [/\S/] are written out for
      that range.
    - A row index is a JavaScript number; the model uses [Z].
    - Reading a property of [undefined] raises a [TypeError]; fallible code
      returns [Res].
    - The methods of the component run in a small state-and-error monad [M]
      over the component's state, the current event's [defaultPrevented]
      flag and the log of calls made to the caller's callbacks and to the
      two child handles. *)

From Stdlib Require Import ZArith List String Ascii Bool Lia.
Import ListNotations.

Local Open Scope string_scope.
Local Open Scope list_scope.
Local Open Scope Z_scope.

(** ** JavaScript primitives used by the component *)

Module JS.

(** [String.prototype.toLowerCase] on one code unit below 256: the letters
    A-Z and the Latin-1 capitals U+00C0-U+00DE (without U+00D7) move up
    by 32. *)
Definition lowerChar (c : ascii) : ascii :=
  let n := nat_of_ascii c in
  if ((65 <=? n) && (n <=? 90))%nat then ascii_of_nat (n + 32)
  else if ((192 <=? n) && (n <=? 222) && negb (n =? 215))%nat
       then ascii_of_nat (n + 32)
  else c.

Fixpoint toLowerCase (s : string) : string :=
  match s with
  | EmptyString => EmptyString
  | String c s' => String (lowerChar c) (toLowerCase s')
  end.

(** [s.startsWith(sub)] *)
Fixpoint startsWith (s sub : string) {struct sub} : bool :=
  match sub, s with
  | EmptyString, _ => true
  | String _ _, EmptyString => false
  | String b sub', String a s' => Ascii.eqb a b && startsWith s' sub'
  end.

(** [s.includes(sub)]: [sub] occurs in [s] at some position. *)
Fixpoint includes (s sub : string) : bool :=
  startsWith s sub ||
  match s with
  | EmptyString => false
  | String _ s' => includes s' sub
  end.

(** The class [\s] of regular expressions, on code units below 256. *)
Definition isWhiteSpace (c : ascii) : bool :=
  let n := nat_of_ascii c in
  (((9 <=? n) && (n <=? 13)) || (n =? 32) || (n =? 160))%nat.

(** [/\S/.test(s)]: [s] holds a character that is not white space. *)
Fixpoint testNonWhiteSpace (s : string) : bool :=
  match s with
  | EmptyString => false
  | String c s' => negb (isWhiteSpace c) || testNonWhiteSpace s'
  end.

(** [x || ''] on an optional string. *)
Definition orEmpty (x : option string) : string :=
  match x with
  | Some s => s
  | None => EmptyString
  end.

(** [n === m] for a number [n] and [m] of type [number | null]. *)
Definition strictEqNum (n : Z) (m : option Z) : bool :=
  match m with
  | Some k => n =? k
  | None => false
  end.

(** The truth value of [m] of type [number | null] in a condition: [null]
    and 0 count as false. *)
Definition truthyNum (m : option Z) : bool :=
  match m with
  | Some k => negb (k =? 0)
  | None => false
  end.

(** [a !== b] on values of type [string | null]. *)
Definition strictNe (a b : option string) : bool :=
  match a, b with
  | Some x, Some y => negb (String.eqb x y)
  | None, None => false
  | _, _ => true
  end.

(** [arr.push(x)] *)
Definition push {A : Type} (arr : list A) (x : A) : list A := arr ++ [x].

(** [arr.findIndex(p)]: the first index whose element satisfies [p],
    or -1. *)
Fixpoint findIndexFrom {A : Type} (p : A -> bool) (arr : list A) (i : Z)
  : Z :=
  match arr with
  | [] => -1
  | x :: arr' => if p x then i else findIndexFrom p arr' (i + 1)
  end.

Definition findIndex {A : Type} (p : A -> bool) (arr : list A) : Z :=
  findIndexFrom p arr 0.

(** [arr[index]]: [undefined] (here [None]) outside the array. *)
Definition at_ {A : Type} (arr : list A) (index : Z) : option A :=
  if 0 <=? index then nth_error arr (Z.to_nat index) else None.

(** [arr.length] as a number. *)
Definition len {A : Type} (arr : list A) : Z := Z.of_nat (List.length arr).

End JS.

(** ** Data model *)

(** [interface IFilterListItem]: what the component needs of an item. *)
Class IFilterListItem (T : Type) : Type := {
  text : T -> string;
  id : T -> string
}.

(** [interface IFilterListGroup<T>] *)
Record IFilterListGroup (T : Type) : Type := {
  identifier : string;
  items : list T
}.
Arguments identifier {T} _.
Arguments items {T} _.

(** [type IFilterListRow<T> = IFlattenedGroup | IFlattenedItem<T>] *)
Inductive IFilterListRow (T : Type) : Type :=
| IFlattenedGroup (group_identifier : string)
| IFlattenedItem (item : T).
Arguments IFlattenedGroup {T} _.
Arguments IFlattenedItem {T} _.

(** [row.kind === 'item'] on a row that is there. *)
Definition isItem {T : Type} (row : IFilterListRow T) : bool :=
  match row with
  | IFlattenedItem _ => true
  | IFlattenedGroup _ => false
  end.

(** [interface IFilterListState<T>] *)
Record IFilterListState (T : Type) : Type := {
  rows : list (IFilterListRow T);
  selectedRow : Z
}.
Arguments rows {T} _.
Arguments selectedRow {T} _.

(** [interface IFilterListProps<T>], without the rendering slots that the
    logic never reads.  An optional callback whose result the component does
    not use is the flag of its presence; [onFilterKeyDown] says, per key,
    whether the caller's handler calls [preventDefault]. *)
Record IFilterListProps (T : Type) : Type := {
  groups : list (IFilterListGroup T);
  selectedItem : option T;
  renderGroupHeader : bool;
  onItemClick : bool;
  onSelectionChanged : bool;
  onFilterKeyDown : option (string -> bool);
  filterText : option string;
  onFilterTextChanged : bool;
  disabled : bool;
  renderNoItems : bool
}.
Arguments groups {T} _.
Arguments selectedItem {T} _.
Arguments renderGroupHeader {T} _.
Arguments onItemClick {T} _.
Arguments onSelectionChanged {T} _.
Arguments onFilterKeyDown {T} _.
Arguments filterText {T} _.
Arguments onFilterTextChanged {T} _.
Arguments disabled {T} _.
Arguments renderNoItems {T} _.

(** The outcome of code that may read a property of [undefined]. *)
Inductive Res (A : Type) : Type :=
| Ok (a : A)
| TypeError.
Arguments Ok {A} _.
Arguments TypeError {A}.

(** ** The row flattener *)

Section Flattener.

Context {T : Type} `{IFilterListItem T}.

(** The predicate of [group.items.filter(...)]. *)
Definition matchesFilter (filter : string) (i : T) : bool :=
  JS.includes (JS.toLowerCase (text i)) filter.

(** The predicate of the first [findIndex]. *)
Definition isSelectedItem (selectedItem : T) (i : IFilterListRow T) : bool :=
  match i with
  | IFlattenedItem it => String.eqb (id it) (id selectedItem)
  | IFlattenedGroup _ => false
  end.

(** One turn of the loop over [props.groups]. *)
Definition flattenGroup (props : IFilterListProps T) (filter : string)
    (flattenedRows : list (IFilterListRow T)) (group : IFilterListGroup T)
  : list (IFilterListRow T) :=
  let items := List.filter (matchesFilter filter) (items group) in
  if (List.length items =? 0)%nat then flattenedRows
  else
    let flattenedRows :=
      if renderGroupHeader props
      then JS.push flattenedRows (IFlattenedGroup (identifier group))
      else flattenedRows in
    fold_left (fun rows item => JS.push rows (IFlattenedItem item))
              items flattenedRows.

Definition createStateUpdate (props : IFilterListProps T)
  : IFilterListState T :=
  let filter := JS.toLowerCase (JS.orEmpty (filterText props)) in
  let flattenedRows :=
    fold_left (flattenGroup props filter) (groups props) [] in
  let selectedRow := -1 in
  let selectedRow :=
    match selectedItem props with
    | Some selectedItem =>
        JS.findIndex (isSelectedItem selectedItem) flattenedRows
    | None => selectedRow
    end in
  let selectedRow :=
    if (selectedRow <? 0) && negb (String.length filter =? 0)%nat
    then JS.findIndex isItem flattenedRows
    else selectedRow in
  {| rows := flattenedRows; selectedRow := selectedRow |}.

Definition getItemFromRowIndex (items : list (IFilterListRow T)) (index : Z)
  : Res (option T) :=
  if (0 <=? index) && (index <? JS.len items) then
    match JS.at_ items index with
    | None => TypeError
    | Some (IFlattenedItem item) => Ok (Some item)
    | Some (IFlattenedGroup _) => Ok None
    end
  else Ok None.

Definition getItemIdFromRowIndex (items : list (IFilterListRow T))
    (index : Z) : Res (option string) :=
  match getItemFromRowIndex items index with
  | Ok (Some item) => Ok (Some (id item))
  | Ok None => Ok None
  | TypeError => TypeError
  end.

End Flattener.

(** ** Faults, effects and the component monad *)

(** [interface IFilterSelectionSource] and [type SelectionSource]; the
    list's own sources are declared in [../lib/list] and stay a type
    parameter. *)
Inductive SelectionSource (ListSelectionSource : Type) : Type :=
| ListSource (source : ListSelectionSource)
| FilterSource (filterText : string).
Arguments ListSource {ListSelectionSource} _.
Arguments FilterSource {ListSelectionSource} _.

(** What a method does to the outside: calls of the caller's callbacks and
    commands sent to the two child handles. *)
Inductive Effect (T ListSelectionSource : Type) : Type :=
| CallSelectionChanged (selected : option T)
                       (source : SelectionSource ListSelectionSource)
| CallItemClick (clicked : T)
| CallFilterKeyDown (key : string)
| CallFilterTextChanged (newText : string)
| FocusInput
| FocusList
| SelectInput.
Arguments CallSelectionChanged {T ListSelectionSource} _ _.
Arguments CallItemClick {T ListSelectionSource} _.
Arguments CallFilterKeyDown {T ListSelectionSource} _.
Arguments CallFilterTextChanged {T ListSelectionSource} _.
Arguments FocusInput {T ListSelectionSource}.
Arguments FocusList {T ListSelectionSource}.
Arguments SelectInput {T ListSelectionSource}.

(** What [renderRow] hands to the list: the caller's rendering of an item
    or of a group header, which the component does not look into, or the
    literal [null]. *)
Inductive Rendered (T : Type) : Type :=
| RenderItem (rendered : T)
| RenderGroupHeader (rendered_identifier : string)
| RenderNull.
Arguments RenderItem {T} _.
Arguments RenderGroupHeader {T} _.
Arguments RenderNull {T}.

(** What a method can change: [this.state], the flag of the event being
    handled, and the log of effects, oldest first. *)
Record World (T ListSelectionSource : Type) : Type := {
  state : IFilterListState T;
  defaultPrevented : bool;
  calls : list (Effect T ListSelectionSource)
}.
Arguments state {T ListSelectionSource} _.
Arguments defaultPrevented {T ListSelectionSource} _.
Arguments calls {T ListSelectionSource} _.

(** The argument of [nextSelectableRow]. *)
Inductive Direction : Type := up | down.

(** The handle [this.list].  The class [List] lives in [../lib/list]; the
    component only asks it for the next selectable row and tells it to take
    the focus, so the handle is the answer function. *)
Record List_ : Type := {
  nextSelectableRow : Direction -> Z -> option Z
}.

(** The instance: its props and the two handles, each possibly [null]. *)
Record FilterList (T : Type) : Type := {
  this_props : IFilterListProps T;
  this_list : option List_;
  this_filterInput : bool
}.
Arguments this_props {T} _.
Arguments this_list {T} _.
Arguments this_filterInput {T} _.

(** An argument of [setState]: the fields that are given. *)
Record StateUpdate (T : Type) : Type := {
  rows_update : option (list (IFilterListRow T));
  selectedRow_update : option Z
}.
Arguments rows_update {T} _.
Arguments selectedRow_update {T} _.

Definition M (T ListSelectionSource A : Type) : Type :=
  World T ListSelectionSource -> Res (A * World T ListSelectionSource).

Section Component.

Context {T ListSelectionSource : Type}.

Definition ret {A : Type} (a : A) : M T ListSelectionSource A :=
  fun w => Ok (a, w).

Definition bind {A B : Type} (m : M T ListSelectionSource A)
    (f : A -> M T ListSelectionSource B) : M T ListSelectionSource B :=
  fun w =>
    match m w with
    | Ok (a, w') => f a w'
    | TypeError => TypeError
    end.

Definition throw {A : Type} : M T ListSelectionSource A :=
  fun _ => TypeError.

Definition lift {A : Type} (r : Res A) : M T ListSelectionSource A :=
  fun w =>
    match r with
    | Ok a => Ok (a, w)
    | TypeError => TypeError
    end.

Definition getState : M T ListSelectionSource (IFilterListState T) :=
  fun w => Ok (state w, w).

(** React merges the given fields into the state. *)
Definition mergeState (s : IFilterListState T) (u : StateUpdate T)
  : IFilterListState T :=
  {| rows := match rows_update u with Some r => r | None => rows s end;
     selectedRow := match selectedRow_update u with
                    | Some i => i
                    | None => selectedRow s
                    end |}.

Definition setState (u : StateUpdate T) : M T ListSelectionSource unit :=
  fun w =>
    Ok (tt, {| state := mergeState (state w) u;
               defaultPrevented := defaultPrevented w;
               calls := calls w |}).

Definition call (e : Effect T ListSelectionSource)
  : M T ListSelectionSource unit :=
  fun w =>
    Ok (tt, {| state := state w;
               defaultPrevented := defaultPrevented w;
               calls := JS.push (calls w) e |}).

Definition preventDefault : M T ListSelectionSource unit :=
  fun w =>
    Ok (tt, {| state := state w;
               defaultPrevented := true;
               calls := calls w |}).

Definition isDefaultPrevented : M T ListSelectionSource bool :=
  fun w => Ok (defaultPrevented w, w).

End Component.

Declare Scope filter_list_scope.
Delimit Scope filter_list_scope with fl.
Notation "x <- m ;; k" := (bind m (fun x => k))
  (at level 61, m at next level, right associativity) : filter_list_scope.
Notation "m ;;; k" := (bind m (fun _ => k))
  (at level 61, right associativity) : filter_list_scope.

(** ** The methods of the component *)

Module FilterList.
Section Methods.

Context {T : Type} `{IFilterListItem T} {ListSelectionSource : Type}.

Local Open Scope filter_list_scope.

Definition selectRow (index : Z) : StateUpdate T :=
  {| rows_update := None; selectedRow_update := Some index |}.

Definition componentWillReceiveProps (nextProps : IFilterListProps T)
  : M T ListSelectionSource unit :=
  let update := createStateUpdate nextProps in
  setState {| rows_update := Some (rows update);
              selectedRow_update := Some (selectedRow update) |}.

Definition onFilterChanged (this : FilterList T) (text : string)
  : M T ListSelectionSource unit :=
  if onFilterTextChanged (this_props this)
  then call (CallFilterTextChanged text)
  else ret tt.

Definition componentDidUpdate (this : FilterList T)
    (prevProps : IFilterListProps T) (prevState : IFilterListState T)
  : M T ListSelectionSource unit :=
  if onSelectionChanged (this_props this) then
    s <- getState ;;
    oldSelectedItemId <-
      lift (getItemIdFromRowIndex (rows prevState) (selectedRow prevState)) ;;
    newSelectedItemId <-
      lift (getItemIdFromRowIndex (rows s) (selectedRow s)) ;;
    if JS.strictNe oldSelectedItemId newSelectedItemId then
      let propSelectionId :=
        match selectedItem (this_props this) with
        | Some selectedItem => Some (id selectedItem)
        | None => None
        end in
      if JS.strictNe propSelectionId newSelectedItemId then
        newSelectedItem <-
          lift (getItemFromRowIndex (rows s) (selectedRow s)) ;;
        call (CallSelectionChanged newSelectedItem
                (FilterSource (JS.orEmpty (filterText (this_props this)))))
      else ret tt
    else ret tt
  else ret tt.

(** [canSelectRow] reads the state and calls nothing. *)
Definition canSelectRow (this : FilterList T) (s : IFilterListState T)
    (index : Z) : Res bool :=
  if disabled (this_props this) then Ok false
  else
    match JS.at_ (rows s) index with
    | None => TypeError
    | Some row => Ok (isItem row)
    end.

Definition onRowClick (this : FilterList T) (index : Z)
  : M T ListSelectionSource unit :=
  if onItemClick (this_props this) then
    s <- getState ;;
    match JS.at_ (rows s) index with
    | None => throw
    | Some (IFlattenedItem item) => call (CallItemClick item)
    | Some (IFlattenedGroup _) => ret tt
    end
  else ret tt.

Definition onRowKeyDown (this : FilterList T) (row : Z) (key : string)
  : M T ListSelectionSource unit :=
  match this_list this with
  | None => ret tt
  | Some list =>
      let firstSelectableRow := nextSelectableRow list down (-1) in
      let lastSelectableRow := nextSelectableRow list up 0 in
      let focusInput :=
        if String.eqb key "ArrowUp" && JS.strictEqNum row firstSelectableRow
        then true
        else if String.eqb key "ArrowDown"
                && JS.strictEqNum row lastSelectableRow
        then true
        else false in
      if focusInput then
        if this_filterInput this
        then preventDefault ;;; call FocusInput
        else ret tt
      else ret tt
  end.

(** [this.setState({ selectedRow }, () => list.focus())] when the list
    has a row to offer. *)
Definition selectAndFocus (selectedRow : option Z)
  : M T ListSelectionSource unit :=
  match selectedRow with
  | Some selectedRow => setState (selectRow selectedRow) ;;; call FocusList
  | None => ret tt
  end.

Definition onKeyDown (this : FilterList T) (key : string)
  : M T ListSelectionSource unit :=
  match this_list this with
  | None => ret tt
  | Some list =>
      match onFilterKeyDown (this_props this) with
      | Some handler =>
          call (CallFilterKeyDown key) ;;;
          if handler key then preventDefault else ret tt
      | None => ret tt
      end ;;;
      prevented <- isDefaultPrevented ;;
      if prevented then ret tt
      else if String.eqb key "ArrowDown" then
        s <- getState ;;
        (if 0 <? JS.len (rows s)
         then selectAndFocus (nextSelectableRow list down (-1))
         else ret tt) ;;;
        preventDefault
      else if String.eqb key "ArrowUp" then
        s <- getState ;;
        (if 0 <? JS.len (rows s)
         then selectAndFocus (nextSelectableRow list up 0)
         else ret tt) ;;;
        preventDefault
      else if String.eqb key "Enter" then
        s <- getState ;;
        if JS.len (rows s) =? 0 then preventDefault
        else
          let blank :=
            match filterText (this_props this) with
            | Some filterText => negb (JS.testNonWhiteSpace filterText)
            | None => false
            end in
          if blank then preventDefault
          else
            let row := nextSelectableRow list down (-1) in
            if JS.truthyNum row then
              match row with
              | Some row => onRowClick this row
              | None => ret tt
              end
            else ret tt
      else ret tt
  end.

(** The constructor: no handle yet, and the state derived from the first
    props. *)
Definition constructor (props : IFilterListProps T)
  : FilterList T * IFilterListState T :=
  ({| this_props := props; this_list := None; this_filterInput := false |},
   createStateUpdate props).

(** [renderRow] reads the state and calls one of the render callbacks. *)
Definition renderRow (this : FilterList T) (s : IFilterListState T)
    (index : Z) : Res (Rendered T) :=
  match JS.at_ (rows s) index with
  | None => TypeError
  | Some (IFlattenedItem item) => Ok (RenderItem item)
  | Some (IFlattenedGroup identifier) =>
      if renderGroupHeader (this_props this)
      then Ok (RenderGroupHeader identifier)
      else Ok RenderNull
  end.

(** [onListRef] stores the handle, [null] when the list goes away. *)
Definition onListRef (this : FilterList T) (instance : option List_)
  : FilterList T :=
  {| this_props := this_props this;
     this_list := instance;
     this_filterInput := this_filterInput this |}.

(** [onInputRef] stores the handle and selects the text of a mounted input
    when the filter text is a non-empty string. *)
Definition onInputRef (this : FilterList T) (instance : bool)
  : FilterList T * M T ListSelectionSource unit :=
  ({| this_props := this_props this;
      this_list := this_list this;
      this_filterInput := instance |},
   if instance
      && match filterText (this_props this) with
         | Some filterText =>
             negb (String.length filterText =? 0)%nat
             && (0 <? Z.of_nat (String.length filterText))
         | None => false
         end
   then call SelectInput
   else ret tt).

(** [onSelectionChanged], the handler given to the list.  It stands last
    because from here on the name hides the field of the props. *)
Definition onSelectionChanged (this : FilterList T) (index : Z)
    (source : SelectionSource ListSelectionSource)
  : M T ListSelectionSource unit :=
  setState (selectRow index) ;;;
  if onSelectionChanged (this_props this) then
    s <- getState ;;
    match JS.at_ (rows s) index with
    | None => throw
    | Some (IFlattenedItem item) =>
        call (CallSelectionChanged (Some item) source)
    | Some (IFlattenedGroup _) => ret tt
    end
  else ret tt.

End Methods.
End FilterList.

(** ** The list control *)

(** Modelled from the spec: the list control of [../lib/list], whose source
    is not part of this development.  [nextSelectableRow(direction, from)]
    is the next selectable row in the given direction starting just past
    [from]; going down from -1 scans from above the top, going up from 0
    scans from below the bottom. *)
Definition stepRow (rowCount : Z) (direction : Direction) (from : Z) : Z :=
  match direction with
  | down => if rowCount - 1 <? from + 1 then 0 else from + 1
  | up => if from - 1 <? 0 then rowCount - 1 else from - 1
  end.

(** Modelled from the spec: the scan itself, one row at a time, at most
    once around the list. *)
Fixpoint scanSelectable (canSelect : Z -> bool) (rowCount : Z)
    (direction : Direction) (from : Z) (fuel : nat) : option Z :=
  match fuel with
  | O => None
  | S fuel' =>
      let next := stepRow rowCount direction from in
      if canSelect next then Some next
      else scanSelectable canSelect rowCount direction next fuel'
  end.

(** Modelled from the spec: a list control with the given row count and
    selectability predicate. *)
Definition listControl (rowCount : Z) (canSelect : Z -> bool) : List_ :=
  {| nextSelectableRow := fun direction from =>
       scanSelectable canSelect rowCount direction from (Z.to_nat rowCount) |}.

(** [renderContent]: the list is mounted, with the component's row count and
    selectability predicate, unless there are no rows and the caller renders
    a placeholder for that. *)
Definition renderContent {T : Type} (props : IFilterListProps T)
    (s : IFilterListState T) : option List_ :=
  if (JS.len (rows s) =? 0) && renderNoItems props then None
  else
    Some (listControl (JS.len (rows s))
            (fun index =>
               match FilterList.canSelectRow
                       {| this_props := props; this_list := None;
                          this_filterInput := true |} s index with
               | Ok b => b
               | TypeError => false
               end)).

(** The props arriving [n] times in a row, each arrival recomputing the
    derived state. *)
Fixpoint receiveProps {T : Type} `{IFilterListItem T}
    {ListSelectionSource : Type} (n : nat) (nextProps : IFilterListProps T)
  : M T ListSelectionSource unit :=
  match n with
  | O => ret tt
  | S k =>
      bind (FilterList.componentWillReceiveProps nextProps)
           (fun _ => receiveProps k nextProps)
  end.

(** ** The specification's reading of the derived state *)

Section Specification.

Context {T : Type} `{IFilterListItem T}.

(** [sub] occurs in [s]. *)
Definition isSubstring (sub s : string) : Prop :=
  exists before after : string, s = (before ++ sub ++ after)%string.

(** Section 4.1, step 1: the items of a group that match the filter text. *)
Definition matchingItems (filterText : option string)
    (g : IFilterListGroup T) : list T :=
  List.filter
    (fun i => JS.includes (JS.toLowerCase (text i))
                          (JS.toLowerCase (JS.orEmpty filterText)))
    (items g).

(** Section 4.1, step 2: the rows of one group. *)
Definition groupRows (hasGroupHeaderRenderer : bool)
    (filterText : option string) (g : IFilterListGroup T)
  : list (IFilterListRow T) :=
  match matchingItems filterText g with
  | [] => []
  | matching =>
      (if hasGroupHeaderRenderer then [IFlattenedGroup (identifier g)]
       else [])
      ++ map IFlattenedItem matching
  end.

(** The rows of all groups, group after group. *)
Definition flattenRows (hasGroupHeaderRenderer : bool)
    (filterText : option string) (gs : list (IFilterListGroup T))
  : list (IFilterListRow T) :=
  flat_map (groupRows hasGroupHeaderRenderer filterText) gs.

(** [n] is the index of the first element of [l] that satisfies [P]. *)
Definition firstIndex {A : Type} (P : A -> Prop) (l : list A) (n : nat)
  : Prop :=
  (exists x, nth_error l n = Some x /\ P x) /\
  (forall m y, (m < n)%nat -> nth_error l m = Some y -> ~ P y).

(** The row is an item row whose item has the given id. *)
Definition hasItemId (selectedItemId : option string)
    (row : IFilterListRow T) : Prop :=
  match row, selectedItemId with
  | IFlattenedItem it, Some i => id it = i
  | _, _ => False
  end.

(** The row has kind ItemRow. *)
Definition isItemRow (row : IFilterListRow T) : Prop :=
  exists it, row = IFlattenedItem it.

(** Section 4.2: the item at a row index, null when the index is negative,
    past the end, or that of a group header. *)
Definition itemAt (rs : list (IFilterListRow T)) (index : Z) : option T :=
  if index <? 0 then None
  else
    match nth_error rs (Z.to_nat index) with
    | Some (IFlattenedItem it) => Some it
    | _ => None
    end.

Definition itemIdAt (rs : list (IFilterListRow T)) (index : Z)
  : option string :=
  option_map id (itemAt rs index).

(** The id of the item the caller holds as selected. *)
Definition selectedItemId (props : IFilterListProps T) : option string :=
  option_map id (selectedItem props).

End Specification.

(** ** Views of the rows and of the props *)

Section Views.

Context {T : Type} `{IFilterListItem T}.

(** The items of the item rows, in row order. *)
Definition itemsOf (rs : list (IFilterListRow T)) : list T :=
  flat_map (fun row => match row with
                       | IFlattenedItem it => [it]
                       | IFlattenedGroup _ => []
                       end) rs.

(** The identifiers of the header rows, in row order. *)
Definition headersOf (rs : list (IFilterListRow T)) : list string :=
  flat_map (fun row => match row with
                       | IFlattenedItem _ => []
                       | IFlattenedGroup identifier => [identifier]
                       end) rs.

(** The group has an item that matches the filter text. *)
Definition hasMatch (filterText : option string) (g : IFilterListGroup T)
  : bool :=
  negb (List.length (matchingItems filterText g) =? 0)%nat.

(** The same props with another filter text. *)
Definition withFilterText (p : IFilterListProps T) (filter : option string)
  : IFilterListProps T :=
  {| groups := groups p;
     selectedItem := selectedItem p;
     renderGroupHeader := renderGroupHeader p;
     onItemClick := onItemClick p;
     onSelectionChanged := onSelectionChanged p;
     onFilterKeyDown := onFilterKeyDown p;
     filterText := filter;
     onFilterTextChanged := onFilterTextChanged p;
     disabled := disabled p;
     renderNoItems := renderNoItems p |}.

(** The same props with another selected item. *)
Definition withSelectedItem (p : IFilterListProps T) (selected : option T)
  : IFilterListProps T :=
  {| groups := groups p;
     selectedItem := selected;
     renderGroupHeader := renderGroupHeader p;
     onItemClick := onItemClick p;
     onSelectionChanged := onSelectionChanged p;
     onFilterKeyDown := onFilterKeyDown p;
     filterText := filterText p;
     onFilterTextChanged := onFilterTextChanged p;
     disabled := disabled p;
     renderNoItems := renderNoItems p |}.

(** The same instance with other props. *)
Definition withProps (this : FilterList T) (p : IFilterListProps T)
  : FilterList T :=
  {| this_props := p;
     this_list := this_list this;
     this_filterInput := this_filterInput this |}.

End Views.

(** ** Worlds before and after an event *)

Section Worlds.

Context {T ListSelectionSource : Type}.

(** The caller's key-down handler, when there is one, cancels this key. *)
Definition callerCancels (props : IFilterListProps T) (key : string) : bool :=
  match onFilterKeyDown props with
  | Some handler => handler key
  | None => false
  end.

(** The world once the caller's key-down handler, when there is one, has
    been called. *)
Definition heard (props : IFilterListProps T) (key : string)
    (w : World T ListSelectionSource) : World T ListSelectionSource :=
  {| state := state w;
     defaultPrevented := defaultPrevented w;
     calls := match onFilterKeyDown props with
              | Some _ => JS.push (calls w) (CallFilterKeyDown key)
              | None => calls w
              end |}.

(** The world with the event's default suppressed. *)
Definition prevented (w : World T ListSelectionSource)
  : World T ListSelectionSource :=
  {| state := state w; defaultPrevented := true; calls := calls w |}.

(** The world with one more effect in the log. *)
Definition logged (w : World T ListSelectionSource)
    (e : Effect T ListSelectionSource) : World T ListSelectionSource :=
  {| state := state w;
     defaultPrevented := defaultPrevented w;
     calls := JS.push (calls w) e |}.

(** The world with another selected row and the same rows. *)
Definition selecting (w : World T ListSelectionSource) (row : Z)
  : World T ListSelectionSource :=
  {| state := {| rows := rows (state w); selectedRow := row |};
     defaultPrevented := defaultPrevented w;
     calls := calls w |}.

End Worlds.

(** ** Sample data *)

Module Sample.

(** A repository entry as the caller's item type. *)
Record Repo : Type := {
  repoName : string;
  repoId : string
}.

#[global] Instance Repo_item : IFilterListItem Repo := {
  text := repoName;
  id := repoId
}.

Definition alpha : Repo := {| repoName := "Alpha"; repoId := "a" |}.
Definition beta : Repo := {| repoName := "Beta"; repoId := "b" |}.
Definition gamma : Repo := {| repoName := "Gamma"; repoId := "c" |}.
Definition hello : Repo := {| repoName := "Hello World"; repoId := "h" |}.

Definition recent : IFilterListGroup Repo :=
  {| identifier := "recent"; items := [alpha; beta] |}.
Definition other : IFilterListGroup Repo :=
  {| identifier := "other"; items := [gamma] |}.
Definition greetings : IFilterListGroup Repo :=
  {| identifier := "greetings"; items := [hello] |}.

(** Props with every callback supplied and nothing disabled. *)
Definition sampleProps (gs : list (IFilterListGroup Repo))
    (selected : option Repo) (headers : bool) (filter : option string)
  : IFilterListProps Repo :=
  {| groups := gs;
     selectedItem := selected;
     renderGroupHeader := headers;
     onItemClick := true;
     onSelectionChanged := true;
     onFilterKeyDown := None;
     filterText := filter;
     onFilterTextChanged := true;
     disabled := false;
     renderNoItems := false |}.

(** The same props without any optional callback. *)
Definition silent (p : IFilterListProps Repo) : IFilterListProps Repo :=
  {| groups := groups p;
     selectedItem := selectedItem p;
     renderGroupHeader := renderGroupHeader p;
     onItemClick := false;
     onSelectionChanged := false;
     onFilterKeyDown := None;
     filterText := filterText p;
     onFilterTextChanged := false;
     disabled := disabled p;
     renderNoItems := renderNoItems p |}.

(** The same props with a key-down handler that cancels every key. *)
Definition cancelling (p : IFilterListProps Repo) : IFilterListProps Repo :=
  {| groups := groups p;
     selectedItem := selectedItem p;
     renderGroupHeader := renderGroupHeader p;
     onItemClick := onItemClick p;
     onSelectionChanged := onSelectionChanged p;
     onFilterKeyDown := Some (fun _ => true);
     filterText := filterText p;
     onFilterTextChanged := onFilterTextChanged p;
     disabled := disabled p;
     renderNoItems := renderNoItems p |}.

Definition repos : list (IFilterListGroup Repo) := [recent; other].

(** Nothing selected, no header rows. *)
Definition plain : IFilterListProps Repo :=
  sampleProps repos None false None.
Definition plainNarrowed : IFilterListProps Repo :=
  sampleProps repos None false (Some "gAm").

(** Nothing selected, header rows. *)
Definition headed : IFilterListProps Repo :=
  sampleProps repos None true None.
Definition headedEmpty : IFilterListProps Repo :=
  sampleProps repos None true (Some EmptyString).

(** "Beta" selected, header rows. *)
Definition chosen : IFilterListProps Repo :=
  sampleProps repos (Some beta) true None.
Definition chosenEmpty : IFilterListProps Repo :=
  sampleProps repos (Some beta) true (Some EmptyString).
Definition chosenNarrowed : IFilterListProps Repo :=
  sampleProps repos (Some beta) true (Some "gAm").

(** The mounted component for given props and state. *)
Definition mounted (p : IFilterListProps Repo) (s : IFilterListState Repo)
  : FilterList Repo :=
  {| this_props := p;
     this_list := renderContent p s;
     this_filterInput := true |}.

(** The world in which a fresh event reaches the component. *)
Definition fresh (s : IFilterListState Repo) : World Repo unit :=
  {| state := s; defaultPrevented := false; calls := [] |}.

(** The component mounted on the state derived from its props, and the
    world in which a fresh event reaches it. *)
Definition derived (p : IFilterListProps Repo) : FilterList Repo :=
  mounted p (createStateUpdate p).
Definition arriving (p : IFilterListProps Repo) : World Repo unit :=
  fresh (createStateUpdate p).

(** What the mounted list answers when asked for the next selectable row. *)
Definition asked (this : FilterList Repo) (direction : Direction) (from : Z)
  : option (option Z) :=
  option_map (fun l => nextSelectableRow l direction from) (this_list this).

End Sample.

(** ** Proof steps for the methods *)

(** Unfolds the monad's operations so that a method reduces on a world. *)
Ltac run_method :=
  unfold bind, ret, lift, call, throw, getState, setState, preventDefault,
    isDefaultPrevented, mergeState, FilterList.selectRow; cbn.

(** Reduces [onKeyDown] on a fresh event that the caller's handler, when
    there is one, lets through. *)
Ltac run_onKeyDown Hlist Hcancel Hfresh :=
  unfold FilterList.onKeyDown, heard, prevented, logged, selecting;
  rewrite Hlist;
  unfold callerCancels in Hcancel;
  match goal with
  | w : World _ _ |- _ => destruct w as [s0 dp cs]
  end;
  cbn in Hfresh; subst;
  match goal with
  | |- context [onFilterKeyDown ?p] =>
      destruct (onFilterKeyDown p) as [handler|];
      [run_method; rewrite Hcancel; cbn | run_method]
  end.

(** Splits the run of a method, given as [H], along its conditions. *)
Ltac split_run H :=
  repeat (match type of H with
          | context [if ?b then _ else _] => destruct b eqn:?
          | context [match ?x with _ => _ end] => destruct x eqn:?
          end; cbn in H);
  try discriminate H.

(** Closes [calls w' = calls w ++ more] for a log grown by pushes. *)
Ltac log_grows :=
  first [ exists []; now rewrite app_nil_r
        | unfold JS.push; rewrite <- ?app_assoc; eexists; reflexivity ].

(** ** Facts about the primitives *)

Section PrimitiveFacts.

Lemma toLowerCase_length (s : string) :
  String.length (JS.toLowerCase s) = String.length s.
Proof.
  induction s as [|c s IH]; simpl; [reflexivity | now rewrite IH].
Qed.

Lemma toLowerCase_empty (s : string) :
  (String.length (JS.toLowerCase s) =? 0)%nat = true <-> s = EmptyString.
Proof.
  rewrite toLowerCase_length, Nat.eqb_eq.
  destruct s; simpl; split; intro E; try reflexivity; discriminate.
Qed.

Lemma startsWith_spec (s sub : string) :
  JS.startsWith s sub = true <-> exists after, s = (sub ++ after)%string.
Proof.
  revert s; induction sub as [|b sub IH]; intros s; simpl.
  - split; [intros _; now exists s | reflexivity].
  - destruct s as [|a s].
    + split; [discriminate | intros [after E]; discriminate].
    + rewrite andb_true_iff, Ascii.eqb_eq, IH. split.
      * intros [-> [after ->]]. now exists after.
      * intros [after E]. injection E as -> ->. split; [reflexivity|].
        now exists after.
Qed.

Lemma includes_spec (s sub : string) :
  JS.includes s sub = true <-> isSubstring sub s.
Proof.
  unfold isSubstring.
  induction s as [|a s IH].
  - simpl. rewrite orb_false_r, startsWith_spec. split.
    + intros [after E]. now exists EmptyString, after.
    + intros [[|c before] [after E]]; [now exists after | discriminate].
  - cbn [JS.includes]. rewrite orb_true_iff, startsWith_spec, IH. split.
    + intros [[after E] | [before [after E]]].
      * now exists EmptyString, after.
      * exists (String a before), after. simpl. now rewrite E.
    + intros [[|c before] [after E]].
      * left. now exists after.
      * right. simpl in E. injection E as -> ->. now exists before, after.
Qed.

(** [/\S/] finds nothing exactly in strings made of white space only, the
    empty string among them. *)
Lemma testNonWhiteSpace_false (s : string) :
  JS.testNonWhiteSpace s = false <->
  forall c, In c (list_ascii_of_string s) -> JS.isWhiteSpace c = true.
Proof.
  induction s as [|a s IH]; simpl.
  - split; [intros _ c [] | reflexivity].
  - rewrite orb_false_iff, negb_false_iff, IH. split.
    + intros [Ha Hs] c [<- | Hc]; auto.
    + intros F. split; [apply F; now left|].
      intros c Hc. apply F. now right.
Qed.

Lemma findIndexFrom_shift {A : Type} (p : A -> bool) (l : list A) (i : Z) :
  JS.findIndexFrom p l i = -1 \/
  exists n, JS.findIndexFrom p l i = i + Z.of_nat n /\ (n < List.length l)%nat.
Proof.
  revert i; induction l as [|x l IH]; intros i; simpl.
  - now left.
  - destruct (p x).
    + right. exists 0%nat. split; lia.
    + destruct (IH (i + 1)) as [E | [n [E L]]]; [now left|].
      right. exists (S n). split; lia.
Qed.

Lemma findIndexFrom_none {A : Type} (p : A -> bool) (l : list A) (i : Z) :
  0 <= i ->
  JS.findIndexFrom p l i = -1 <-> forall x, In x l -> p x = false.
Proof.
  revert i; induction l as [|x l IH]; intros i Hi; simpl.
  - split; [intros _ y [] | reflexivity].
  - destruct (p x) eqn:E.
    + split; [lia|]. intros F. rewrite (F x) in E by now left. discriminate.
    + rewrite IH by lia. split.
      * intros F y [<- | Hy]; auto.
      * intros F y Hy. apply F. now right.
Qed.

Lemma findIndexFrom_first {A : Type} (p : A -> bool) (l : list A)
    (i : Z) (n : nat) :
  0 <= i ->
  JS.findIndexFrom p l i = i + Z.of_nat n <->
  firstIndex (fun x => p x = true) l n.
Proof.
  unfold firstIndex.
  revert i n; induction l as [|x l IH]; intros i n Hi; simpl.
  - split.
    + lia.
    + intros [[y [E _]] _]. destruct n; discriminate.
  - destruct (p x) eqn:E.
    + split.
      * intros En. assert (n = 0%nat) as -> by lia. split.
        -- exists x. now split.
        -- intros m y Hm. lia.
      * intros [_ F]. destruct n as [|n]; [lia|].
        exfalso. apply (F 0%nat x); [lia | reflexivity | exact E].
    + destruct n as [|n].
      * split.
        -- intros En. destruct (findIndexFrom_shift p l (i + 1))
             as [E1 | [k [E1 _]]]; lia.
        -- intros [[y [Ey Py]] _]. simpl in Ey. injection Ey as <-.
           congruence.
      * replace (i + Z.of_nat (S n)) with (i + 1 + Z.of_nat n) by lia.
        rewrite IH by lia. split.
        -- intros [Hx F]. split; [exact Hx|].
           intros [|m] y Hm Ey.
           ++ simpl in Ey. injection Ey as <-. congruence.
           ++ apply (F m y); [lia | exact Ey].
        -- intros [Hx F]. split; [exact Hx|].
           intros m y Hm Ey. apply (F (S m) y); [lia | exact Ey].
Qed.

(** [findIndex] answers -1 exactly when no element qualifies, and the first
    qualifying index otherwise. *)
Lemma findIndex_cases {A : Type} (p : A -> bool) (l : list A) :
  (JS.findIndex p l = -1 /\ forall x, In x l -> p x = false) \/
  (exists n, JS.findIndex p l = Z.of_nat n /\
             firstIndex (fun x => p x = true) l n).
Proof.
  unfold JS.findIndex.
  destruct (findIndexFrom_shift p l 0) as [E | [n [E _]]].
  - left. split; [exact E|]. apply (findIndexFrom_none p l 0); [lia | exact E].
  - right. exists n. split; [exact E|].
    apply (findIndexFrom_first p l 0 n); [lia | exact E].
Qed.

Lemma firstIndex_unique {A : Type} (P : A -> Prop) (l : list A)
    (n m : nat) :
  firstIndex P l n -> firstIndex P l m -> n = m.
Proof.
  intros [[x [Ex Px]] Fn] [[y [Ey Py]] Fm].
  destruct (Nat.lt_trichotomy n m) as [L | [E | L]]; [|exact E|].
  - exfalso. exact (Fm n x L Ex Px).
  - exfalso. exact (Fn m y L Ey Py).
Qed.

Lemma firstIndex_ext {A : Type} (P Q : A -> Prop) (l : list A) (n : nat) :
  (forall x, P x <-> Q x) -> firstIndex P l n -> firstIndex Q l n.
Proof.
  intros E [[x [Ex Px]] F]. split.
  - exists x. split; [exact Ex | now apply E].
  - intros m y Hm Ey Qy. apply (F m y Hm Ey). now apply E.
Qed.

Lemma at_in_range {A : Type} (l : list A) (index : Z) :
  0 <= index < JS.len l -> exists x, JS.at_ l index = Some x.
Proof.
  unfold JS.at_, JS.len. intros R.
  destruct (0 <=? index) eqn:E; [|lia].
  destruct (nth_error l (Z.to_nat index)) as [x|] eqn:N; [now exists x|].
  apply nth_error_None in N. lia.
Qed.

Lemma at_out_of_range {A : Type} (l : list A) (index : Z) :
  ~ 0 <= index < JS.len l -> JS.at_ l index = None.
Proof.
  unfold JS.at_, JS.len. intros R.
  destruct (0 <=? index) eqn:E; [|reflexivity].
  apply nth_error_None. lia.
Qed.

End PrimitiveFacts.


(** ** The row flattener *)

Section FlattenerFacts.

Context {T : Type} `{IFilterListItem T}.

Lemma push_items (l : list T) (acc : list (IFilterListRow T)) :
  fold_left (fun rows item => JS.push rows (IFlattenedItem item)) l acc
  = acc ++ map IFlattenedItem l.
Proof.
  revert acc; induction l as [|x l IH]; intros acc; simpl.
  - now rewrite app_nil_r.
  - rewrite IH. unfold JS.push. now rewrite <- app_assoc.
Qed.

Lemma flattenGroup_groupRows (props : IFilterListProps T)
    (acc : list (IFilterListRow T)) (g : IFilterListGroup T) :
  flattenGroup props (JS.toLowerCase (JS.orEmpty (filterText props))) acc g
  = acc ++ groupRows (renderGroupHeader props) (filterText props) g.
Proof.
  unfold flattenGroup, groupRows, matchingItems.
  change (fun i : T =>
            JS.includes (JS.toLowerCase (text i))
              (JS.toLowerCase (JS.orEmpty (filterText props))))
    with (matchesFilter (JS.toLowerCase (JS.orEmpty (filterText props)))).
  destruct (List.filter _ (items g)) as [|x l]; simpl.
  - now rewrite app_nil_r.
  - destruct (renderGroupHeader props); simpl.
    + rewrite push_items. unfold JS.push. now rewrite <- !app_assoc.
    + rewrite push_items. unfold JS.push. now rewrite <- !app_assoc.
Qed.

Lemma flatten_loop (props : IFilterListProps T)
    (gs : list (IFilterListGroup T)) (acc : list (IFilterListRow T)) :
  fold_left
    (flattenGroup props (JS.toLowerCase (JS.orEmpty (filterText props))))
    gs acc
  = acc ++ flattenRows (renderGroupHeader props) (filterText props) gs.
Proof.
  revert acc; induction gs as [|g gs IH]; intros acc; simpl.
  - now rewrite app_nil_r.
  - rewrite IH, flattenGroup_groupRows. now rewrite <- app_assoc.
Qed.

Lemma rows_createStateUpdate (props : IFilterListProps T) :
  rows (createStateUpdate props)
  = flattenRows (renderGroupHeader props) (filterText props) (groups props).
Proof.
  unfold createStateUpdate. cbn [rows]. now rewrite flatten_loop.
Qed.

(** The selected row as the two searches leave it. *)
Lemma selectedRow_createStateUpdate (props : IFilterListProps T) :
  selectedRow (createStateUpdate props)
  = let rs := rows (createStateUpdate props) in
    let found :=
      match selectedItem props with
      | Some selectedItem => JS.findIndex (isSelectedItem selectedItem) rs
      | None => -1
      end in
    if (found <? 0)
       && negb (String.length
                  (JS.toLowerCase (JS.orEmpty (filterText props))) =? 0)%nat
    then JS.findIndex isItem rs
    else found.
Proof. reflexivity. Qed.

Lemma isItem_isItemRow (row : IFilterListRow T) :
  isItem row = true <-> isItemRow row.
Proof.
  unfold isItemRow. destruct row as [g | it]; simpl; split.
  - discriminate.
  - intros [it E]. discriminate.
  - intros _. now exists it.
  - reflexivity.
Qed.

Lemma isSelectedItem_hasItemId (sel : T) (row : IFilterListRow T) :
  isSelectedItem sel row = true <-> hasItemId (Some (id sel)) row.
Proof.
  destruct row as [g | it]; simpl.
  - split; [discriminate | intros []].
  - apply String.eqb_eq.
Qed.

Lemma in_groupRows (h : bool) (ft : option string)
    (g : IFilterListGroup T) (i : T) :
  In (IFlattenedItem i) (groupRows h ft g) <-> In i (matchingItems ft g).
Proof.
  unfold groupRows. destruct (matchingItems ft g) as [|x l] eqn:E.
  - reflexivity.
  - rewrite in_app_iff, in_map_iff. split.
    + intros [Hh | [y [Ey Hy]]].
      * destruct h; simpl in Hh; [destruct Hh as [Hh | []]; discriminate
                                 | destruct Hh].
      * injection Ey as <-. exact Hy.
    + intros Hi. right. now exists i.
Qed.

End FlattenerFacts.

(** ** Claims about the flattener *)

(** C2. The rows are the rows of each group in caller order, one group after
    the other: a group without a matching item gives no row at all, any
    other group gives its header row first exactly when a group-header
    renderer is supplied, then one item row per matching item in the
    group's order. *)
Theorem flatten_emits_groups_in_order :
  forall (T : Type) (I : IFilterListItem T) (props : IFilterListProps T),
    rows (createStateUpdate props)
    = flattenRows (renderGroupHeader props) (filterText props)
                  (groups props).
Proof.
  intros T I props. apply rows_createStateUpdate.
Qed.

(** C6. An item is among the flattened rows exactly when it is an item of
    one of the groups and its lower-cased text contains the lower-cased
    filter text (the empty string when absent) as a substring; the item
    "Hello World" is kept by the filters "wor", "HELLO" and the empty one,
    and dropped by "xyz". *)
Theorem item_row_iff_case_insensitive_substring :
  (forall (T : Type) (I : IFilterListItem T) (props : IFilterListProps T)
          (i : T),
      In (IFlattenedItem i) (rows (createStateUpdate props))
      <->
      (exists g, In g (groups props) /\ In i (items g)) /\
      isSubstring (JS.toLowerCase (JS.orEmpty (filterText props)))
                  (JS.toLowerCase (text i)))
  /\
  (let kept filter :=
     In (IFlattenedItem Sample.hello)
        (rows (createStateUpdate
                 (Sample.sampleProps [Sample.greetings] None true filter))) in
   kept (Some "wor") /\ kept (Some "HELLO") /\ kept (Some EmptyString) /\
   ~ kept (Some "xyz")).
Proof.
  split.
  - intros T I props i.
    rewrite rows_createStateUpdate. unfold flattenRows.
    rewrite in_flat_map. split.
    + intros [g [Hg Hi]]. apply in_groupRows in Hi.
      unfold matchingItems in Hi. apply filter_In in Hi as [Hi Hm].
      split; [now exists g | now apply includes_spec].
    + intros [[g [Hg Hi]] Hs]. exists g. split; [exact Hg|].
      apply in_groupRows. unfold matchingItems. apply filter_In.
      split; [exact Hi | now apply includes_spec].
  - cbv zeta. repeat split.
    + vm_compute. right. now left.
    + vm_compute. right. now left.
    + vm_compute. right. now left.
    + vm_compute. intros [].
Qed.

(** C6, used on the sample: "Hello World" is kept by the filter "wor". *)
Lemma item_row_iff_case_insensitive_substring_witness :
  In (IFlattenedItem Sample.hello)
     (rows (createStateUpdate
              (Sample.sampleProps [Sample.greetings] None true (Some "wor")))).
Proof.
  apply (proj1 item_row_iff_case_insensitive_substring). split.
  - exists Sample.greetings. split; simpl; now left.
  - exists "hello ", "ld". reflexivity.
Defined.

(** C1. The selected row is the index of the first item row whose item id
    is the selected item's id when there is such a row; failing that, with a
    non-empty filter text, the index of the first item row, or -1 without
    one; failing that, with an empty filter text, -1. *)
Theorem selectedRow_preference :
  forall (T : Type) (I : IFilterListItem T) (props : IFilterListProps T),
    let s := createStateUpdate props in
    (forall n, firstIndex (hasItemId (selectedItemId props)) (rows s) n ->
               selectedRow s = Z.of_nat n)
    /\
    ((forall row, In row (rows s) ->
                  ~ hasItemId (selectedItemId props) row) ->
     JS.orEmpty (filterText props) <> EmptyString ->
     (forall n, firstIndex isItemRow (rows s) n ->
                selectedRow s = Z.of_nat n) /\
     ((forall row, In row (rows s) -> ~ isItemRow row) ->
      selectedRow s = -1))
    /\
    ((forall row, In row (rows s) ->
                  ~ hasItemId (selectedItemId props) row) ->
     JS.orEmpty (filterText props) = EmptyString ->
     selectedRow s = -1).
Proof.
  intros T I props s.
  assert (Sel := selectedRow_createStateUpdate props).
  fold s in Sel. cbv zeta in Sel. clearbody s.
  set (rs := rows s) in *.
  set (filterEmpty :=
         (String.length (JS.toLowerCase (JS.orEmpty (filterText props)))
          =? 0)%nat) in *.
  assert (FE : filterEmpty = true
               <-> JS.orEmpty (filterText props) = EmptyString)
    by apply toLowerCase_empty.
  (* what the first search leaves *)
  assert (Found :
    (exists n, firstIndex (hasItemId (selectedItemId props)) rs n /\
               selectedRow s = Z.of_nat n)
    \/
    ((forall row, In row rs -> ~ hasItemId (selectedItemId props) row) /\
     selectedRow s
     = if negb filterEmpty then JS.findIndex isItem rs else -1)).
  { unfold selectedItemId. revert Sel.
    destruct (selectedItem props) as [sel|]; intros Sel; simpl.
    - destruct (findIndex_cases (isSelectedItem sel) rs)
        as [[E F] | [n [E F]]].
      + right. split.
        * intros row Hrow Hid. apply isSelectedItem_hasItemId in Hid.
          rewrite (F row Hrow) in Hid. discriminate.
        * rewrite Sel, E. simpl. now destruct filterEmpty.
      + left. exists n. split.
        * eapply firstIndex_ext; [|exact F].
          intros x. apply isSelectedItem_hasItemId.
        * rewrite Sel, E.
          replace (Z.of_nat n <? 0) with false
            by (symmetry; apply Z.ltb_ge; lia).
          reflexivity.
    - right. split.
      + intros row _ Hid. destruct row; exact Hid.
      + rewrite Sel. simpl. now destruct filterEmpty. }
  split; [|split].
  - intros n Fn. destruct Found as [[m [Fm E]] | [Nf _]].
    + now rewrite (firstIndex_unique _ _ _ _ Fn Fm).
    + destruct Fn as [[x [Ex Px]] _]. exfalso.
      apply (Nf x); [eapply nth_error_In; exact Ex | exact Px].
  - intros Nf Hne.
    assert (E : selectedRow s = JS.findIndex isItem rs).
    { destruct Found as [[m [Fm _]] | [_ E]].
      - destruct Fm as [[x [Ex Px]] _]. exfalso.
        apply (Nf x); [eapply nth_error_In; exact Ex | exact Px].
      - rewrite E. destruct filterEmpty; [|reflexivity].
        exfalso. apply Hne. now apply FE. }
    destruct (findIndex_cases (@isItem T) rs) as [[E1 F] | [m [E1 F]]].
    + split.
      * intros n [[x [Ex Px]] _]. apply isItem_isItemRow in Px.
        rewrite (F x) in Px by (eapply nth_error_In; exact Ex).
        discriminate.
      * intros _. now rewrite E.
    + split.
      * intros n Fn. rewrite E, E1. f_equal.
        apply (firstIndex_unique isItemRow rs); [|exact Fn].
        eapply firstIndex_ext; [|exact F]. intros x. apply isItem_isItemRow.
      * intros Ni. destruct F as [[x [Ex Px]] _]. exfalso.
        apply (Ni x); [eapply nth_error_In; exact Ex|].
        now apply isItem_isItemRow.
  - intros Nf He. destruct Found as [[m [Fm _]] | [_ E]].
    + destruct Fm as [[x [Ex Px]] _]. exfalso.
      apply (Nf x); [eapply nth_error_In; exact Ex | exact Px].
    + rewrite E. apply FE in He. now rewrite He.
Qed.

(** C1, used on the sample: with "b" selected and an empty filter the row
    of "b" is selected; with the filter "gAm", which drops "b", the first
    item row left is. *)
Lemma selectedRow_preference_witness :
  selectedRow (createStateUpdate Sample.chosenEmpty) = 2 /\
  selectedRow (createStateUpdate Sample.chosenNarrowed) = 1.
Proof.
  split.
  - apply (proj1 (selectedRow_preference _ _ Sample.chosenEmpty) 2%nat).
    split.
    + exists (IFlattenedItem Sample.beta). split; reflexivity.
    + intros [|[|m]] y Hm E; try lia;
        vm_compute in E; injection E as <-; vm_compute;
        [intros [] | discriminate].
  - destruct (selectedRow_preference _ _ Sample.chosenNarrowed)
      as [_ [Narrowed _]].
    apply (proj1 (Narrowed
                    ltac:(intros row [<- | [<- | []]];
                          [intros [] | discriminate])
                    ltac:(discriminate)) 1%nat).
    split.
    + exists (IFlattenedItem Sample.gamma). split.
      * reflexivity.
      * now exists Sample.gamma.
    + intros [|m] y Hm E; try lia.
      vm_compute in E. injection E as <-. intros [it Eit]. discriminate.
Defined.

(** C7. The selected row of the derived state is -1 or the index of a row
    that is there and is an item row. *)
Theorem selectedRow_minus_one_or_item_row :
  forall (T : Type) (I : IFilterListItem T) (props : IFilterListProps T),
    let s := createStateUpdate props in
    selectedRow s = -1 \/
    exists (n : nat) (it : T),
      selectedRow s = Z.of_nat n /\
      nth_error (rows s) n = Some (IFlattenedItem it).
Proof.
  intros T I props s.
  assert (Sel := selectedRow_createStateUpdate props).
  fold s in Sel. cbv zeta in Sel. clearbody s.
  assert (Search : forall p : IFilterListRow T -> bool,
             (forall row, p row = true -> isItem row = true) ->
             JS.findIndex p (rows s) = -1 \/
             exists (n : nat) (it : T),
               JS.findIndex p (rows s) = Z.of_nat n /\
               nth_error (rows s) n = Some (IFlattenedItem it)).
  { intros p Hp.
    destruct (findIndex_cases p (rows s)) as [[E _] | [n [E [[x [Ex Px]] _]]]].
    - now left.
    - right. apply Hp in Px. destruct x as [g | it]; [discriminate|].
      now exists n, it. }
  assert (First : forall found,
             found = -1 \/
             (exists (n : nat) (it : T),
                found = Z.of_nat n /\
                nth_error (rows s) n = Some (IFlattenedItem it)) ->
             forall e : bool,
               selectedRow s
               = (if (found <? 0) && e
                  then JS.findIndex isItem (rows s) else found) ->
               selectedRow s = -1 \/
               exists (n : nat) (it : T),
                 selectedRow s = Z.of_nat n /\
                 nth_error (rows s) n = Some (IFlattenedItem it)).
  { intros found [-> | [n [it [-> N]]]] e E.
    - simpl in E. destruct e.
      + rewrite E. apply Search. auto.
      + left. exact E.
    - replace (Z.of_nat n <? 0) with false in E
        by (symmetry; apply Z.ltb_ge; lia).
      right. now exists n, it. }
  eapply First; [|exact Sel].
  destruct (selectedItem props) as [sel|]; [|now left].
  apply Search. intros [g | it] E; [discriminate | reflexivity].
Qed.

(** C10. Without a group-header renderer every flattened row is an item
    row, so that the selectability predicate accepts every row of the
    derived state whenever the widget is not disabled. *)
Theorem no_header_renderer_all_rows_selectable :
  forall (T : Type) (I : IFilterListItem T) (this : FilterList T),
    renderGroupHeader (this_props this) = false ->
    let s := createStateUpdate (this_props this) in
    (forall row, In row (rows s) -> isItemRow row) /\
    (disabled (this_props this) = false ->
     forall index, 0 <= index < JS.len (rows s) ->
                   FilterList.canSelectRow this s index = Ok true).
Proof.
  intros T I this Hh s.
  assert (Items : forall row, In row (rows s) -> isItemRow row).
  { intros row Hrow. subst s. rewrite rows_createStateUpdate, Hh in Hrow.
    unfold flattenRows in Hrow. apply in_flat_map in Hrow as [g [_ Hrow]].
    unfold groupRows in Hrow.
    destruct (matchingItems (filterText (this_props this)) g) as [|x l];
      [destruct Hrow|].
    change (In row (map IFlattenedItem (x :: l))) in Hrow.
    apply in_map_iff in Hrow as [it [<- _]].
    now exists it. }
  split; [exact Items|].
  intros Hd index R. unfold FilterList.canSelectRow. rewrite Hd.
  destruct (at_in_range (rows s) index R) as [row E]. rewrite E.
  assert (Hrow : In row (rows s)).
  { unfold JS.at_ in E. destruct (0 <=? index); [|discriminate].
    eapply nth_error_In. exact E. }
  apply Items, isItem_isItemRow in Hrow. now rewrite Hrow.
Qed.

(** C10, used on the sample: three item rows, the last one selectable. *)
Lemma no_header_renderer_all_rows_selectable_witness :
  FilterList.canSelectRow (Sample.derived Sample.plain)
                          (createStateUpdate Sample.plain) 2 = Ok true.
Proof.
  destruct (no_header_renderer_all_rows_selectable _ _
              (Sample.derived Sample.plain) eq_refl)
    as [_ Selectable].
  apply Selectable.
  - reflexivity.
  - vm_compute. split; [discriminate | reflexivity].
Defined.

(** C9. The derived state is a function of the groups, the filter text, the
    selected item and the presence of a group-header renderer alone: props
    that agree on these give the same rows and the same selected row, and
    receiving them once more, any number of times, leaves the component in
    the state the first computation gave. *)
Theorem derived_state_deterministic :
  forall (T : Type) (I : IFilterListItem T) (L : Type)
         (p1 p2 : IFilterListProps T),
    groups p1 = groups p2 ->
    filterText p1 = filterText p2 ->
    selectedItem p1 = selectedItem p2 ->
    renderGroupHeader p1 = renderGroupHeader p2 ->
    createStateUpdate p1 = createStateUpdate p2 /\
    forall (n : nat) (w : World T L),
      receiveProps (S n) p2 w
      = Ok (tt, {| state := createStateUpdate p1;
                   defaultPrevented := defaultPrevented w;
                   calls := calls w |}).
Proof.
  intros T I L p1 p2 Hg Hf Hs Hh.
  assert (E : createStateUpdate p1 = createStateUpdate p2).
  { unfold createStateUpdate. cbv zeta. rewrite !flatten_loop.
    now rewrite Hg, Hf, Hs, Hh. }
  split; [exact E|].
  rewrite E. intros n. induction n as [|n IH]; intros w.
  - reflexivity.
  - change (receiveProps (S (S n)) p2 w)
      with (receiveProps (S n) p2
              {| state := createStateUpdate p2;
                 defaultPrevented := defaultPrevented w;
                 calls := calls w |}).
    now rewrite IH.
Qed.

(** C9, used on the sample: props that differ in the disabled flag only,
    received three times. *)
Lemma derived_state_deterministic_witness :
  createStateUpdate Sample.chosenNarrowed
  = createStateUpdate (Sample.silent Sample.chosenNarrowed) /\
  forall w : World Sample.Repo unit,
    receiveProps 3 (Sample.silent Sample.chosenNarrowed) w
    = Ok (tt, {| state := createStateUpdate Sample.chosenNarrowed;
                 defaultPrevented := defaultPrevented w;
                 calls := calls w |}).
Proof.
  destruct (derived_state_deterministic _ _ unit Sample.chosenNarrowed
              (Sample.silent Sample.chosenNarrowed)
              eq_refl eq_refl eq_refl eq_refl) as [E R].
  split; [exact E | exact (R 2%nat)].
Defined.

(** ** Row indices *)

Section IndexFacts.

Context {T : Type} `{IFilterListItem T}.

Lemma itemAt_out_of_range (rs : list (IFilterListRow T)) (index : Z) :
  ~ 0 <= index < JS.len rs -> itemAt rs index = None.
Proof.
  unfold itemAt, JS.len. intros R.
  destruct (index <? 0) eqn:E; [reflexivity|].
  apply Z.ltb_ge in E.
  assert (N : nth_error rs (Z.to_nat index) = None)
    by (apply nth_error_None; lia).
  now rewrite N.
Qed.

Lemma at_itemAt (rs : list (IFilterListRow T)) (index : Z) :
  itemAt rs index
  = match JS.at_ rs index with
    | Some (IFlattenedItem it) => Some it
    | _ => None
    end.
Proof.
  unfold itemAt, JS.at_.
  destruct (index <? 0) eqn:E.
  - apply Z.ltb_lt in E.
    replace (0 <=? index) with false by (symmetry; apply Z.leb_gt; lia).
    reflexivity.
  - apply Z.ltb_ge in E.
    replace (0 <=? index) with true by (symmetry; apply Z.leb_le; lia).
    reflexivity.
Qed.

(** The guarded lookup never reads a row that is not there. *)
Lemma getItemFromRowIndex_itemAt (rs : list (IFilterListRow T)) (index : Z) :
  getItemFromRowIndex rs index = Ok (itemAt rs index).
Proof.
  unfold getItemFromRowIndex.
  destruct ((0 <=? index) && (index <? JS.len rs)) eqn:G.
  - apply andb_true_iff in G as [G1 G2].
    apply Z.leb_le in G1. apply Z.ltb_lt in G2.
    destruct (at_in_range rs index (conj G1 G2)) as [row E].
    rewrite at_itemAt, E. now destruct row.
  - rewrite itemAt_out_of_range; [reflexivity|].
    intros [G1 G2]. apply Z.leb_le in G1. apply Z.ltb_lt in G2.
    rewrite G1, G2 in G. discriminate.
Qed.

Lemma getItemIdFromRowIndex_itemIdAt (rs : list (IFilterListRow T))
    (index : Z) :
  getItemIdFromRowIndex rs index = Ok (itemIdAt rs index).
Proof.
  unfold getItemIdFromRowIndex, itemIdAt.
  rewrite getItemFromRowIndex_itemAt. now destruct (itemAt rs index).
Qed.

Lemma strictNe_true (a b : option string) :
  JS.strictNe a b = true <-> a <> b.
Proof.
  destruct a as [x|], b as [y|]; simpl.
  - rewrite negb_true_iff. split.
    + intros E N. injection N as ->. rewrite String.eqb_refl in E.
      discriminate.
    + intros N. apply String.eqb_neq. congruence.
  - split; [discriminate | reflexivity].
  - split; [discriminate | reflexivity].
  - split; [discriminate | congruence].
Qed.

Lemma strictNe_false (a b : option string) :
  JS.strictNe a b = false <-> a = b.
Proof.
  destruct (JS.strictNe a b) eqn:E.
  - apply strictNe_true in E. split; [discriminate | contradiction].
  - split; [intros _ | reflexivity].
    destruct a as [x|], b as [y|]; simpl in E; try discriminate.
    + apply negb_false_iff, String.eqb_eq in E. now subst.
    + reflexivity.
Qed.

End IndexFacts.

(** C8, refuted as stated: after the filter "gAm" has shrunk three rows to
    one, index 2 makes the selectability predicate and both handlers of the
    list read a row that is not there. *)
Lemma stale_index_faults_handlers :
  JS.len (rows (createStateUpdate Sample.plain)) = 3 /\
  JS.len (rows (createStateUpdate Sample.plainNarrowed)) = 1 /\
  FilterList.canSelectRow (Sample.derived Sample.plainNarrowed)
                          (createStateUpdate Sample.plainNarrowed) 2
  = TypeError /\
  FilterList.onRowClick (Sample.derived Sample.plainNarrowed) 2
                        (Sample.arriving Sample.plainNarrowed)
  = TypeError /\
  FilterList.onSelectionChanged (Sample.derived Sample.plainNarrowed) 2
                                (ListSource tt)
                                (Sample.arriving Sample.plainNarrowed)
  = TypeError.
Proof.
  repeat split.
Qed.

(** C8, amended.  The guarded lookup of the reconciler answers on every
    index, with null outside the rows.  The selectability predicate and the
    list's two handlers answer on every index inside the rows; outside,
    they answer only when the widget is disabled, respectively when their
    callback is absent, and fault otherwise. *)
Theorem row_index_guarded_lookup_total :
  forall (T : Type) (I : IFilterListItem T) (L : Type)
         (this : FilterList T) (w : World T L) (index : Z)
         (source : SelectionSource L),
    let rs := rows (state w) in
    (getItemFromRowIndex rs index = Ok (itemAt rs index) /\
     getItemIdFromRowIndex rs index = Ok (itemIdAt rs index) /\
     (~ 0 <= index < JS.len rs ->
      itemAt rs index = None /\ itemIdAt rs index = None))
    /\
    (0 <= index < JS.len rs ->
     (exists b, FilterList.canSelectRow this (state w) index = Ok b) /\
     (exists w', FilterList.onRowClick this index w = Ok (tt, w')) /\
     (exists w',
         FilterList.onSelectionChanged this index source w = Ok (tt, w')))
    /\
    (~ 0 <= index < JS.len rs ->
     FilterList.canSelectRow this (state w) index
     = (if disabled (this_props this) then Ok false else TypeError) /\
     FilterList.onRowClick this index w
     = (if onItemClick (this_props this) then TypeError else Ok (tt, w)) /\
     FilterList.onSelectionChanged this index source w
     = (if onSelectionChanged (this_props this) then TypeError
        else Ok (tt, selecting w index))).
Proof.
  intros T I L this w index source rs.
  split; [|split].
  - split; [apply getItemFromRowIndex_itemAt|].
    split; [apply getItemIdFromRowIndex_itemIdAt|].
    intros R. unfold itemIdAt. now rewrite itemAt_out_of_range.
  - intros R. destruct (at_in_range rs index R) as [row E].
    split; [|split].
    + unfold FilterList.canSelectRow. fold rs. rewrite E.
      destruct (disabled (this_props this)); eauto.
    + unfold FilterList.onRowClick.
      destruct (onItemClick (this_props this)); run_method; [|eauto].
      fold rs. rewrite E. destruct row; eauto.
    + unfold FilterList.onSelectionChanged. run_method.
      destruct (onSelectionChanged (this_props this)); cbn; [|eauto].
      fold rs. rewrite E. destruct row; eauto.
  - intros R. assert (E := at_out_of_range rs index R).
    split; [|split].
    + unfold FilterList.canSelectRow. fold rs. now rewrite E.
    + unfold FilterList.onRowClick.
      destruct (onItemClick (this_props this)); run_method;
        [|reflexivity].
      fold rs. now rewrite E.
    + unfold FilterList.onSelectionChanged. run_method.
      destruct (onSelectionChanged (this_props this)); cbn;
        [|reflexivity].
      fold rs. now rewrite E.
Qed.

(** C8, used on the sample: the stale index 2 resolves to null in the
    lookup, and index 0 is served by all three operations. *)
Lemma row_index_guarded_lookup_total_witness :
  getItemFromRowIndex (rows (createStateUpdate Sample.plainNarrowed)) 2
  = Ok None /\
  exists w',
    FilterList.onRowClick (Sample.derived Sample.plainNarrowed) 0
                          (Sample.arriving Sample.plainNarrowed)
    = Ok (tt, w').
Proof.
  destruct (row_index_guarded_lookup_total _ _ unit
              (Sample.derived Sample.plainNarrowed)
              (Sample.arriving Sample.plainNarrowed) 2 (ListSource tt))
    as [[Lookup _] _].
  destruct (row_index_guarded_lookup_total _ _ unit
              (Sample.derived Sample.plainNarrowed)
              (Sample.arriving Sample.plainNarrowed) 0 (ListSource tt))
    as [_ [Inside _]].
  split.
  - exact Lookup.
  - apply Inside. vm_compute. split; [discriminate | reflexivity].
Defined.

(** ** The selection reconciler *)

(** C3, refuted as stated: the filter "gAm" moves the selection from "b" to
    "c", which is not what the caller holds, and yet nothing is emitted,
    because no selection-changed callback is supplied. *)
Lemma no_callback_no_notification :
  itemIdAt (rows (createStateUpdate Sample.chosen))
           (selectedRow (createStateUpdate Sample.chosen)) = Some "b" /\
  itemIdAt (rows (createStateUpdate (Sample.silent Sample.chosenNarrowed)))
           (selectedRow
              (createStateUpdate (Sample.silent Sample.chosenNarrowed)))
  = Some "c" /\
  selectedItemId (Sample.silent Sample.chosenNarrowed) = Some "b" /\
  FilterList.componentDidUpdate
    (Sample.derived (Sample.silent Sample.chosenNarrowed))
    (Sample.silent Sample.chosen) (createStateUpdate Sample.chosen)
    (Sample.arriving (Sample.silent Sample.chosenNarrowed))
  = Ok (tt, Sample.arriving (Sample.silent Sample.chosenNarrowed)).
Proof.
  repeat split.
Qed.

(** C3, amended.  When a selection-changed callback is supplied, it is
    called, with the item at the new selected row and the source
    FilterTextChange carrying the filter text or the empty string, exactly
    when the item id at the new selected row differs both from the item id
    at the previous selected row and from the id of the selected-item prop;
    in every other case, and whenever no callback is supplied, nothing is
    emitted. *)
Theorem reconciler_notifies_iff_selection_drifted :
  forall (T : Type) (I : IFilterListItem T) (L : Type)
         (this : FilterList T) (prevProps : IFilterListProps T)
         (prevState : IFilterListState T) (w : World T L),
    let p := this_props this in
    let oldId := itemIdAt (rows prevState) (selectedRow prevState) in
    let newId := itemIdAt (rows (state w)) (selectedRow (state w)) in
    let notification :=
      CallSelectionChanged
        (itemAt (rows (state w)) (selectedRow (state w)))
        (FilterSource (JS.orEmpty (filterText p))) in
    (onSelectionChanged p = true ->
     oldId <> newId -> selectedItemId p <> newId ->
     FilterList.componentDidUpdate this prevProps prevState w
     = Ok (tt, logged w notification))
    /\
    (onSelectionChanged p = true ->
     oldId = newId \/ selectedItemId p = newId ->
     FilterList.componentDidUpdate this prevProps prevState w = Ok (tt, w))
    /\
    (onSelectionChanged p = false ->
     FilterList.componentDidUpdate this prevProps prevState w = Ok (tt, w)).
Proof.
  intros T I L this prevProps prevState w p oldId newId notification.
  assert (Run :
    onSelectionChanged p = true ->
    FilterList.componentDidUpdate this prevProps prevState w
    = if JS.strictNe oldId newId && JS.strictNe (selectedItemId p) newId
      then Ok (tt, logged w notification)
      else Ok (tt, w)).
  { intros On. unfold FilterList.componentDidUpdate. fold p. rewrite On.
    unfold bind at 1. unfold getState at 1.
    unfold bind at 1. rewrite getItemIdFromRowIndex_itemIdAt.
    unfold lift at 1.
    unfold bind at 1. rewrite getItemIdFromRowIndex_itemIdAt.
    unfold lift at 1.
    fold oldId newId.
    change (match selectedItem p with
            | Some selectedItem => Some (id selectedItem)
            | None => None
            end) with (selectedItemId p).
    destruct (JS.strictNe oldId newId); [|reflexivity].
    destruct (JS.strictNe (selectedItemId p) newId); [|reflexivity].
    unfold bind. rewrite getItemFromRowIndex_itemAt. reflexivity. }
  split; [|split].
  - intros On Hold Hprop. rewrite (Run On).
    apply strictNe_true in Hold. apply strictNe_true in Hprop.
    now rewrite Hold, Hprop.
  - intros On [Hold | Hprop]; rewrite (Run On).
    + apply strictNe_false in Hold. now rewrite Hold.
    + apply strictNe_false in Hprop. rewrite Hprop.
      now rewrite andb_false_r.
  - intros Off. unfold FilterList.componentDidUpdate. fold p.
    now rewrite Off.
Qed.

(** C3, used on the sample: the same drift as above with the callback
    supplied is reported with the item "c" and the filter text. *)
Lemma reconciler_notifies_iff_selection_drifted_witness :
  FilterList.componentDidUpdate
    (Sample.derived Sample.chosenNarrowed)
    Sample.chosen (createStateUpdate Sample.chosen)
    (Sample.arriving Sample.chosenNarrowed)
  = Ok (tt, logged (Sample.arriving Sample.chosenNarrowed)
              (CallSelectionChanged (Some Sample.gamma)
                                    (FilterSource "gAm"))).
Proof.
  destruct (reconciler_notifies_iff_selection_drifted _ _ unit
              (Sample.derived Sample.chosenNarrowed)
              Sample.chosen (createStateUpdate Sample.chosen)
              (Sample.arriving Sample.chosenNarrowed))
    as [Drift _].
  apply Drift.
  - reflexivity.
  - vm_compute. discriminate.
  - vm_compute. discriminate.
Defined.

(** ** Keys in the filter input and in the list *)

(** Without a list handle both key handlers return at once and leave the
    event alone. *)
Lemma key_handlers_without_list_are_silent :
  forall (T : Type) (I : IFilterListItem T) (L : Type)
         (this : FilterList T) (w : World T L) (row : Z) (key : string),
    this_list this = None ->
    FilterList.onKeyDown this key w = Ok (tt, w) /\
    FilterList.onRowKeyDown this row key w = Ok (tt, w).
Proof.
  intros T I L this w row key Hlist.
  unfold FilterList.onKeyDown, FilterList.onRowKeyDown.
  rewrite Hlist. split; reflexivity.
Qed.

(** C4, refuted as stated: with header rows the first selectable row is
    row 1, a click on it would reach the item-click callback, and Enter on
    the empty filter text only suppresses the default. *)
Lemma enter_on_empty_filter_text_is_suppressed :
  filterText Sample.headedEmpty = Some EmptyString /\
  JS.len (rows (createStateUpdate Sample.headedEmpty)) = 5 /\
  Sample.asked (Sample.derived Sample.headedEmpty) down (-1)
  = Some (Some 1) /\
  FilterList.onRowClick (Sample.derived Sample.headedEmpty) 1
                        (Sample.arriving Sample.headedEmpty)
  = Ok (tt, logged (Sample.arriving Sample.headedEmpty)
              (CallItemClick Sample.alpha)) /\
  FilterList.onKeyDown (Sample.derived Sample.headedEmpty) "Enter"
                       (Sample.arriving Sample.headedEmpty)
  = Ok (tt, prevented (Sample.arriving Sample.headedEmpty)).
Proof.
  repeat split.
Qed.

(** Enter with the first selectable row at index 0: the row is taken for
    false by [if (row)] and is not clicked. *)
Lemma enter_skips_row_zero :
  Sample.asked (Sample.derived Sample.plain) down (-1) = Some (Some 0) /\
  FilterList.onRowClick (Sample.derived Sample.plain) 0
                        (Sample.arriving Sample.plain)
  = Ok (tt, logged (Sample.arriving Sample.plain)
              (CallItemClick Sample.alpha)) /\
  FilterList.onKeyDown (Sample.derived Sample.plain) "Enter"
                       (Sample.arriving Sample.plain)
  = Ok (tt, Sample.arriving Sample.plain).
Proof.
  repeat split.
Qed.

(** C4, amended.  Enter in the filter input, on a mounted list and an event
    the caller's handler has not cancelled: without rows the default is
    suppressed and nothing else happens; with a filter text that is given
    and holds no character other than white space, the empty string
    included, the default is suppressed and no item is clicked; otherwise,
    that is with the filter text absent or holding such a character, the
    first selectable row scanning down from above the top is asked of the
    list, and when there is one other than row 0 the row-click logic runs
    on it, and when there is none nothing happens. *)
Theorem enter_clicks_first_selectable_row :
  forall (T : Type) (I : IFilterListItem T) (L : Type)
         (this : FilterList T) (l : List_) (w : World T L),
    this_list this = Some l ->
    callerCancels (this_props this) "Enter" = false ->
    defaultPrevented w = false ->
    let w1 := heard (this_props this) "Enter" w in
    (rows (state w) = [] ->
     FilterList.onKeyDown this "Enter" w = Ok (tt, prevented w1))
    /\
    (rows (state w) <> [] ->
     forall filter, filterText (this_props this) = Some filter ->
                    JS.testNonWhiteSpace filter = false ->
     FilterList.onKeyDown this "Enter" w = Ok (tt, prevented w1))
    /\
    (rows (state w) <> [] ->
     filterText (this_props this) = None \/
     (exists filter, filterText (this_props this) = Some filter /\
                     JS.testNonWhiteSpace filter = true) ->
     (forall row, nextSelectableRow l down (-1) = Some row -> row <> 0 ->
                  FilterList.onKeyDown this "Enter" w
                  = FilterList.onRowClick this row w1) /\
     (nextSelectableRow l down (-1) = None ->
      FilterList.onKeyDown this "Enter" w = Ok (tt, w1))).
Proof.
  intros T I L this l w Hlist Hcancel Hfresh w1. subst w1.
  split; [|split].
  - intros Hrows. run_onKeyDown Hlist Hcancel Hfresh;
      cbn in Hrows; rewrite Hrows; reflexivity.
  - intros Hrows filter Hfilter Hblank.
    assert (Hlen : (JS.len (rows (state w)) =? 0) = false).
    { apply Z.eqb_neq. unfold JS.len.
      destruct (rows (state w)); [contradiction | simpl; lia]. }
    run_onKeyDown Hlist Hcancel Hfresh;
      cbn in Hlen; rewrite Hlen, Hfilter, Hblank; reflexivity.
  - intros Hrows Hfilter.
    assert (Hlen : (JS.len (rows (state w)) =? 0) = false).
    { apply Z.eqb_neq. unfold JS.len.
      destruct (rows (state w)); [contradiction | simpl; lia]. }
    assert (Hblank :
      match filterText (this_props this) with
      | Some filterText => negb (JS.testNonWhiteSpace filterText)
      | None => false
      end = false).
    { destruct Hfilter as [-> | [filter [-> ->]]]; reflexivity. }
    split.
    + intros row Hrow Hnz.
      assert (Htruthy : JS.truthyNum (Some row) = true).
      { simpl. apply negb_true_iff, Z.eqb_neq. exact Hnz. }
      run_onKeyDown Hlist Hcancel Hfresh;
        cbn in Hlen; rewrite Hlen, Hblank, Hrow, Htruthy; reflexivity.
    + intros Hnone.
      run_onKeyDown Hlist Hcancel Hfresh;
        cbn in Hlen; rewrite Hlen, Hblank, Hnone; reflexivity.
Qed.

(** C4, used on the sample: with header rows and no filter text given,
    Enter clicks row 1, the first item. *)
Lemma enter_clicks_first_selectable_row_witness :
  FilterList.onKeyDown (Sample.derived Sample.headed) "Enter"
                       (Sample.arriving Sample.headed)
  = Ok (tt, logged (Sample.arriving Sample.headed)
              (CallItemClick Sample.alpha)).
Proof.
  destruct (this_list (Sample.derived Sample.headed)) as [l|] eqn:Hlist;
    [|discriminate].
  destruct (enter_clicks_first_selectable_row _ _ unit
              (Sample.derived Sample.headed) l
              (Sample.arriving Sample.headed) Hlist eq_refl eq_refl)
    as [_ [_ Proceeds]].
  destruct (Proceeds ltac:(discriminate) (or_introl eq_refl))
    as [Clicks _].
  injection Hlist as <-.
  rewrite (Clicks 1 eq_refl ltac:(discriminate)).
  reflexivity.
Defined.

(** C5, refuted as stated: a row exists and the list offers row 0, but the
    caller's key-down handler cancels ArrowDown; the selected row stays -1
    and the focus is not moved. *)
Lemma cancelled_arrow_down_moves_nothing :
  JS.len (rows (createStateUpdate (Sample.cancelling Sample.plain))) = 3 /\
  selectedRow (createStateUpdate (Sample.cancelling Sample.plain)) = -1 /\
  Sample.asked (Sample.derived (Sample.cancelling Sample.plain)) down (-1)
  = Some (Some 0) /\
  FilterList.onKeyDown (Sample.derived (Sample.cancelling Sample.plain))
                       "ArrowDown"
                       (Sample.arriving (Sample.cancelling Sample.plain))
  = Ok (tt, {| state := createStateUpdate (Sample.cancelling Sample.plain);
               defaultPrevented := true;
               calls := [CallFilterKeyDown "ArrowDown"] |}).
Proof.
  repeat split.
Qed.

(** C5, amended.  On a mounted list: with the filter input available,
    ArrowUp on the row the list gives as first selectable, and ArrowDown on
    the row it gives as last selectable, move the focus to the filter
    input, cancel the default and leave the state as it is.  In the filter
    input, on an event that the caller's handler has not cancelled and with
    at least one row, ArrowDown selects the first selectable row the list
    gives, ArrowUp the last one, and either moves the focus into the list
    and suppresses the default. *)
Theorem boundary_keys_transfer_focus :
  forall (T : Type) (I : IFilterListItem T) (L : Type)
         (this : FilterList T) (l : List_) (w : World T L) (row : Z),
    this_list this = Some l ->
    (this_filterInput this = true ->
     (nextSelectableRow l down (-1) = Some row ->
      FilterList.onRowKeyDown this row "ArrowUp" w
      = Ok (tt, logged (prevented w) FocusInput)) /\
     (nextSelectableRow l up 0 = Some row ->
      FilterList.onRowKeyDown this row "ArrowDown" w
      = Ok (tt, logged (prevented w) FocusInput)))
    /\
    (defaultPrevented w = false -> rows (state w) <> [] ->
     (callerCancels (this_props this) "ArrowDown" = false ->
      nextSelectableRow l down (-1) = Some row ->
      FilterList.onKeyDown this "ArrowDown" w
      = Ok (tt, prevented
                  (logged (selecting (heard (this_props this) "ArrowDown" w)
                                     row)
                          FocusList))) /\
     (callerCancels (this_props this) "ArrowUp" = false ->
      nextSelectableRow l up 0 = Some row ->
      FilterList.onKeyDown this "ArrowUp" w
      = Ok (tt, prevented
                  (logged (selecting (heard (this_props this) "ArrowUp" w)
                                     row)
                          FocusList)))).
Proof.
  intros T I L this l w row Hlist.
  split.
  - intros Hinput. split; intros Hrow.
    + unfold FilterList.onRowKeyDown. rewrite Hlist, Hrow, Hinput.
      cbn. now rewrite Z.eqb_refl.
    + unfold FilterList.onRowKeyDown. rewrite Hlist, Hrow, Hinput.
      cbn. now rewrite Z.eqb_refl.
  - intros Hfresh Hrows.
    assert (Hlen : (0 <? JS.len (rows (state w))) = true).
    { apply Z.ltb_lt. unfold JS.len.
      destruct (rows (state w)); [contradiction | simpl; lia]. }
    split; intros Hcancel Hrow.
    + run_onKeyDown Hlist Hcancel Hfresh;
        cbn in Hlen; rewrite Hlen, Hrow; reflexivity.
    + run_onKeyDown Hlist Hcancel Hfresh;
        cbn in Hlen; rewrite Hlen, Hrow; reflexivity.
Qed.

(** C5, used on the sample with header rows: ArrowUp on row 1, the topmost
    selectable row, hands the focus to the filter input; ArrowDown in the
    filter input selects row 1 and hands the focus to the list. *)
Lemma boundary_keys_transfer_focus_witness :
  FilterList.onRowKeyDown (Sample.derived Sample.headed) 1 "ArrowUp"
                          (Sample.arriving Sample.headed)
  = Ok (tt, logged (prevented (Sample.arriving Sample.headed)) FocusInput)
  /\
  FilterList.onKeyDown (Sample.derived Sample.headed) "ArrowDown"
                       (Sample.arriving Sample.headed)
  = Ok (tt, prevented
              (logged (selecting (Sample.arriving Sample.headed) 1)
                      FocusList)).
Proof.
  destruct (this_list (Sample.derived Sample.headed)) as [l|] eqn:Hlist;
    [|discriminate].
  destruct (boundary_keys_transfer_focus _ _ unit
              (Sample.derived Sample.headed) l
              (Sample.arriving Sample.headed) 1 Hlist)
    as [InList InInput].
  injection Hlist as <-.
  split.
  - apply (proj1 (InList eq_refl)). reflexivity.
  - apply (proj1 (InInput eq_refl ltac:(discriminate))); reflexivity.
Defined.

(** ** More about strings and matching *)

Section MatchingFacts.



Lemma lowerChar_idempotent (c : ascii) :
  JS.lowerChar (JS.lowerChar c) = JS.lowerChar c.
Proof.
  destruct c as [[] [] [] [] [] [] [] []]; reflexivity.
Qed.

Lemma toLowerCase_idempotent (s : string) :
  JS.toLowerCase (JS.toLowerCase s) = JS.toLowerCase s.
Proof.
  induction s as [|c s IH]; simpl; [reflexivity|].
  now rewrite lowerChar_idempotent, IH.
Qed.



Lemma includes_empty (s : string) : JS.includes s EmptyString = true.
Proof.
  apply includes_spec. exists EmptyString, s. reflexivity.
Qed.

End MatchingFacts.

(** ** More about the flattened rows *)

Section RowFacts.

Context {T : Type} `{IFilterListItem T}.

Lemma in_rows_createStateUpdate (props : IFilterListProps T) (i : T) :
  In (IFlattenedItem i) (rows (createStateUpdate props)) <->
  exists g, In g (groups props) /\ In i (matchingItems (filterText props) g).
Proof.
  rewrite rows_createStateUpdate. unfold flattenRows. rewrite in_flat_map.
  split; intros [g [Hg Hi]]; exists g; (split; [exact Hg|]).
  - now apply in_groupRows in Hi.
  - now apply in_groupRows.
Qed.

Lemma groupRows_nonempty_has_item (h : bool) (ft : option string)
    (g : IFilterListGroup T) (row : IFilterListRow T) :
  In row (groupRows h ft g) ->
  exists it, In it (matchingItems ft g).
Proof.
  unfold groupRows. destruct (matchingItems ft g) as [|x l].
  - intros [].
  - intros _. exists x. now left.
Qed.

(** Rows that are there hold an item row. *)
Lemma rows_nonempty_has_item (props : IFilterListProps T) :
  rows (createStateUpdate props) <> [] ->
  exists it, In (IFlattenedItem it) (rows (createStateUpdate props)).
Proof.
  intros Hne.
  destruct (rows (createStateUpdate props)) as [|row rs] eqn:E;
    [contradiction|].
  assert (Hrow : In row (rows (createStateUpdate props)))
    by (rewrite E; now left).
  rewrite <- E.
  rewrite rows_createStateUpdate in Hrow. unfold flattenRows in Hrow.
  apply in_flat_map in Hrow as [g [Hg Hrow]].
  apply groupRows_nonempty_has_item in Hrow as [it Hit].
  exists it. apply in_rows_createStateUpdate. now exists g.
Qed.

Lemma itemsOf_app (l1 l2 : list (IFilterListRow T)) :
  itemsOf (l1 ++ l2) = itemsOf l1 ++ itemsOf l2.
Proof. unfold itemsOf. apply flat_map_app. Qed.

Lemma headersOf_app (l1 l2 : list (IFilterListRow T)) :
  headersOf (l1 ++ l2) = headersOf l1 ++ headersOf l2.
Proof. unfold headersOf. apply flat_map_app. Qed.

Lemma itemsOf_items (l : list T) : itemsOf (map IFlattenedItem l) = l.
Proof.
  induction l as [|x l IH]; simpl; [reflexivity | now rewrite IH].
Qed.

Lemma headersOf_items (l : list T) : headersOf (map IFlattenedItem l) = [].
Proof.
  induction l as [|x l IH]; simpl; [reflexivity | exact IH].
Qed.

Lemma itemsOf_groupRows (h : bool) (ft : option string)
    (g : IFilterListGroup T) :
  itemsOf (groupRows h ft g) = matchingItems ft g.
Proof.
  unfold groupRows. destruct (matchingItems ft g) as [|x l] eqn:E;
    [reflexivity|].
  rewrite itemsOf_app, itemsOf_items. now destruct h.
Qed.

Lemma headersOf_groupRows (h : bool) (ft : option string)
    (g : IFilterListGroup T) :
  headersOf (groupRows h ft g)
  = if h && hasMatch ft g then [identifier g] else [].
Proof.
  unfold groupRows, hasMatch.
  destruct (matchingItems ft g) as [|x l] eqn:E.
  - now rewrite andb_false_r.
  - rewrite headersOf_app, headersOf_items, app_nil_r. now destruct h.
Qed.

Lemma in_itemsOf (rs : list (IFilterListRow T)) (i : T) :
  In i (itemsOf rs) <-> In (IFlattenedItem i) rs.
Proof.
  unfold itemsOf. rewrite in_flat_map. split.
  - intros [row [Hrow Hi]]. destruct row as [g | it]; [destruct Hi|].
    destruct Hi as [-> | []]. exact Hrow.
  - intros Hi. exists (IFlattenedItem i). split; [exact Hi | now left].
Qed.

End RowFacts.

(** ** Further properties of the flattener *)

Section FirstSearch.

Context {T : Type} `{IFilterListItem T}.

(** A search for item rows on rows that hold one succeeds. *)
Lemma findIndex_isItem_found (rs : list (IFilterListRow T)) (it : T) :
  In (IFlattenedItem it) rs ->
  exists n : nat, JS.findIndex isItem rs = Z.of_nat n.
Proof.
  intros Hit. destruct (findIndex_cases (@isItem T) rs)
    as [[_ F] | [n [E _]]].
  - specialize (F _ Hit). discriminate.
  - now exists n.
Qed.

Lemma nth_error_items_not_header (l : list T) (n : nat) (g : string) :
  nth_error (map IFlattenedItem l) n <> Some (IFlattenedGroup g).
Proof.
  rewrite nth_error_map. destruct (nth_error l n); discriminate.
Qed.

Lemma header_in_flattenRows (h : bool) (ft : option string)
    (gs : list (IFilterListGroup T)) (n : nat) (identifier_ : string) :
  nth_error (flattenRows h ft gs) n = Some (IFlattenedGroup identifier_) ->
  h = true /\
  exists g it rest,
    In g gs /\ identifier g = identifier_ /\
    matchingItems ft g = it :: rest /\
    nth_error (flattenRows h ft gs) (S n) = Some (IFlattenedItem it).
Proof.
  revert n. induction gs as [|g gs IH]; intros n Hn.
  - destruct n; discriminate.
  - unfold flattenRows in *. cbn [flat_map] in *.
    destruct (Nat.lt_ge_cases n (List.length (groupRows h ft g)))
      as [Hlt | Hge].
    + rewrite nth_error_app1 in Hn by exact Hlt.
      unfold groupRows in Hn, Hlt |- *.
      destruct (matchingItems ft g) as [|x l] eqn:E;
        [destruct n; discriminate|].
      destruct h.
      * destruct n as [|n].
        -- simpl in Hn. injection Hn as <-. split; [reflexivity|].
           exists g, x, l. repeat split; [now left | exact E].
        -- exfalso. simpl in Hn.
           exact (nth_error_items_not_header (x :: l) n _ Hn).
      * exfalso. simpl app in Hn.
        exact (nth_error_items_not_header (x :: l) n _ Hn).
    + rewrite nth_error_app2 in Hn by exact Hge.
      destruct (IH _ Hn) as [Hh [g' [it [rest [Hg [Hid [Hm Hnext]]]]]]].
      split; [exact Hh|].
      exists g', it, rest. repeat split; try assumption; [now right|].
      rewrite nth_error_app2 by lia.
      replace (S n - List.length (groupRows h ft g))%nat
        with (S (n - List.length (groupRows h ft g))) by lia.
      exact Hnext.
Qed.

End FirstSearch.

Lemma itemsOf_rows {T : Type} `{IFilterListItem T}
    (props : IFilterListProps T) :
  itemsOf (rows (createStateUpdate props))
  = flat_map (matchingItems (filterText props)) (groups props).
Proof.
  rewrite rows_createStateUpdate. unfold flattenRows.
  induction (groups props) as [|g gs IH]; cbn [flat_map]; [reflexivity|].
  now rewrite itemsOf_app, itemsOf_groupRows, IH.
Qed.

Lemma selectedRow_of_empty_rows {T : Type} `{IFilterListItem T}
    (props : IFilterListProps T) :
  rows (createStateUpdate props) = [] ->
  selectedRow (createStateUpdate props) = -1.
Proof.
  intros E. rewrite selectedRow_createStateUpdate. cbv zeta. rewrite E.
  destruct (selectedItem props); simpl; now destruct (negb _).
Qed.

Lemma rows_empty_iff {T : Type} `{IFilterListItem T}
    (props : IFilterListProps T) :
  rows (createStateUpdate props) = [] <->
  forall g i, In g (groups props) -> In i (items g) ->
              matchesFilter
                (JS.toLowerCase (JS.orEmpty (filterText props))) i
              = false.
Proof.
  split.
  - intros E g i Hg Hi.
    destruct (matchesFilter _ i) eqn:M; [exfalso | reflexivity].
    assert (Hrow : In (IFlattenedItem i) (rows (createStateUpdate props))).
    { apply in_rows_createStateUpdate. exists g. split; [exact Hg|].
      unfold matchingItems. apply filter_In. split; [exact Hi | exact M]. }
    rewrite E in Hrow. destruct Hrow.
  - intros F.
    destruct (rows (createStateUpdate props)) as [|row rs] eqn:E;
      [reflexivity | exfalso].
    destruct (rows_nonempty_has_item props) as [it Hit];
      [rewrite E; discriminate|].
    apply in_rows_createStateUpdate in Hit as [g [Hg Hit]].
    unfold matchingItems in Hit. apply filter_In in Hit as [Hi M].
    unfold matchesFilter in F. rewrite (F g it Hg Hi) in M. discriminate.
Qed.

(** X1. The rows are empty exactly when no item of any group matches the
    filter, and then no row is selected. *)
Theorem rows_empty_iff_nothing_matches :
  forall (T : Type) (I : IFilterListItem T) (props : IFilterListProps T),
    (rows (createStateUpdate props) = [] <->
     forall g i, In g (groups props) -> In i (items g) ->
                 matchesFilter
                   (JS.toLowerCase (JS.orEmpty (filterText props))) i
                 = false)
    /\
    (rows (createStateUpdate props) = [] ->
     selectedRow (createStateUpdate props) = -1).
Proof.
  intros T I props. split.
  - apply rows_empty_iff.
  - apply selectedRow_of_empty_rows.
Qed.

(** X1, used on the sample: "xyz" matches nothing, so there are no rows and
    no selection although "Hello World" is the selected item. *)
Lemma rows_empty_iff_nothing_matches_witness :
  selectedRow
    (createStateUpdate
       (Sample.sampleProps [Sample.greetings] (Some Sample.hello) true
                           (Some "xyz"))) = -1.
Proof.
  destruct (rows_empty_iff_nothing_matches _ _
              (Sample.sampleProps [Sample.greetings] (Some Sample.hello)
                                  true (Some "xyz")))
    as [[_ Empty] Unselected].
  apply Unselected, Empty.
  intros g i [<- | []] [<- | []]. reflexivity.
Defined.

(** X2. Leaving the header rows out, the rows list the matching items of
    the groups, group after group, whether or not headers are rendered; the
    header rows list the identifiers of the groups that have a match, in
    group order, when a group-header renderer is supplied, and there is no
    header row otherwise. *)
Theorem rows_list_matching_items_and_headers :
  forall (T : Type) (I : IFilterListItem T) (props : IFilterListProps T),
    itemsOf (rows (createStateUpdate props))
    = flat_map (matchingItems (filterText props)) (groups props)
    /\
    headersOf (rows (createStateUpdate props))
    = (if renderGroupHeader props
       then map identifier
                (List.filter (hasMatch (filterText props)) (groups props))
       else []).
Proof.
  intros T I props. split; [apply itemsOf_rows|].
  rewrite rows_createStateUpdate. unfold flattenRows.
  induction (groups props) as [|g gs IH]; cbn [flat_map].
  - now destruct (renderGroupHeader props).
  - rewrite headersOf_app, headersOf_groupRows, IH.
    cbn [List.filter]. destruct (renderGroupHeader props); simpl.
    + now destruct (hasMatch (filterText props) g).
    + reflexivity.
Qed.

(** X3. A header row only occurs when a group-header renderer is supplied,
    carries the identifier of a group with a match, and is directly
    followed by the row of that group's first matching item; in
    particular the last row is never a header. *)
Theorem header_row_is_followed_by_first_match :
  forall (T : Type) (I : IFilterListItem T) (props : IFilterListProps T)
         (n : nat) (header : string),
    nth_error (rows (createStateUpdate props)) n
    = Some (IFlattenedGroup header) ->
    renderGroupHeader props = true /\
    exists g it rest,
      In g (groups props) /\ identifier g = header /\
      matchingItems (filterText props) g = it :: rest /\
      nth_error (rows (createStateUpdate props)) (S n)
      = Some (IFlattenedItem it).
Proof.
  intros T I props n header. rewrite rows_createStateUpdate.
  apply header_in_flattenRows.
Qed.

(** X3, used on the sample: the header "other" at row 3 is followed by an
    item row at row 4. *)
Lemma header_row_is_followed_by_first_match_witness :
  exists it,
    nth_error (rows (createStateUpdate Sample.headed)) 4
    = Some (IFlattenedItem it).
Proof.
  destruct (header_row_is_followed_by_first_match
              Sample.Repo Sample.Repo_item Sample.headed
              3%nat "other" eq_refl)
    as [_ [g [it [rest [Hg [Hid [Hm Hnext]]]]]]].
  exists it. exact Hnext.
Defined.

(** X4. With a non-empty filter text a row is selected whenever there is a
    row at all: the selected row is -1 exactly when the rows are empty. *)
Theorem nonempty_filter_selects_unless_no_rows :
  forall (T : Type) (I : IFilterListItem T) (props : IFilterListProps T),
    JS.orEmpty (filterText props) <> EmptyString ->
    (selectedRow (createStateUpdate props) = -1 <->
     rows (createStateUpdate props) = []).
Proof.
  intros T I props Hne. split.
  - intros Sel.
    destruct (rows (createStateUpdate props)) as [|row rs] eqn:E;
      [reflexivity | exfalso].
    destruct (rows_nonempty_has_item props) as [it Hit];
      [rewrite E; discriminate|].
    destruct (findIndex_isItem_found _ it Hit) as [n En].
    rewrite selectedRow_createStateUpdate in Sel. cbv zeta in Sel.
    assert (Hfilter :
      negb (String.length (JS.toLowerCase (JS.orEmpty (filterText props)))
            =? 0)%nat = true).
    { apply negb_true_iff. apply not_true_is_false. intros F.
      apply toLowerCase_empty in F. contradiction. }
    rewrite Hfilter, andb_true_r, En in Sel.
    destruct (selectedItem props) as [sel|].
    + destruct (findIndex_cases (isSelectedItem sel)
                  (rows (createStateUpdate props)))
        as [[Ef _] | [m [Ef _]]]; rewrite Ef in Sel; simpl in Sel.
      * lia.
      * replace (Z.of_nat m <? 0) with false in Sel
          by (symmetry; apply Z.ltb_ge; lia).
        lia.
    + simpl in Sel. lia.
  - apply selectedRow_of_empty_rows.
Qed.

(** X4, used on the sample: under the filter "gAm" one row is left, so a
    row is selected. *)
Lemma nonempty_filter_selects_unless_no_rows_witness :
  selectedRow (createStateUpdate Sample.plainNarrowed) <> -1.
Proof.
  intros Sel.
  apply (nonempty_filter_selects_unless_no_rows
           Sample.Repo Sample.Repo_item Sample.plainNarrowed
           ltac:(discriminate)) in Sel.
  discriminate Sel.
Defined.

Lemma filter_all {A : Type} (f : A -> bool) (l : list A) :
  (forall x, f x = true) -> List.filter f l = l.
Proof.
  intros F. induction l as [|x l IH]; simpl; [reflexivity|].
  now rewrite F, IH.
Qed.

(** X5. With the filter text absent or empty every item of every group has
    its row, in the caller's order, and without a selected item no row is
    selected. *)
Theorem empty_filter_keeps_every_item :
  forall (T : Type) (I : IFilterListItem T) (props : IFilterListProps T),
    JS.orEmpty (filterText props) = EmptyString ->
    itemsOf (rows (createStateUpdate props))
    = flat_map items (groups props)
    /\
    (selectedItem props = None ->
     selectedRow (createStateUpdate props) = -1).
Proof.
  intros T I props He. split.
  - rewrite itemsOf_rows. apply flat_map_ext. intros g.
    unfold matchingItems. apply filter_all. intros i.
    rewrite He. apply includes_empty.
  - intros Hs. rewrite selectedRow_createStateUpdate. cbv zeta.
    rewrite Hs, He. reflexivity.
Qed.

(** X5, used on the sample: without a filter text the three repositories
    are listed in order. *)
Lemma empty_filter_keeps_every_item_witness :
  itemsOf (rows (createStateUpdate Sample.headed))
  = [Sample.alpha; Sample.beta; Sample.gamma].
Proof.
  apply (proj1 (empty_filter_keeps_every_item
                  Sample.Repo Sample.Repo_item Sample.headed eq_refl)).
Defined.



(** X7. The letter case of the filter text does not matter: props that
    differ only in a filter text with the same lower-casing give the same
    rows and the same selected row; so do an absent and an empty filter
    text, and a filter text and its lower-casing. *)
Theorem filter_text_case_is_ignored :
  forall (T : Type) (I : IFilterListItem T) (props : IFilterListProps T),
    (forall filter,
        JS.toLowerCase (JS.orEmpty filter)
        = JS.toLowerCase (JS.orEmpty (filterText props)) ->
        createStateUpdate (withFilterText props filter)
        = createStateUpdate props)
    /\
    createStateUpdate
      (withFilterText props
         (Some (JS.toLowerCase (JS.orEmpty (filterText props)))))
    = createStateUpdate props.
Proof.
  intros T I props.
  assert (Same : forall filter,
             JS.toLowerCase (JS.orEmpty filter)
             = JS.toLowerCase (JS.orEmpty (filterText props)) ->
             createStateUpdate (withFilterText props filter)
             = createStateUpdate props).
  { intros filter E. unfold createStateUpdate. cbv zeta.
    cbn [withFilterText filterText groups selectedItem].
    rewrite E. reflexivity. }
  split; [exact Same|].
  apply Same. cbn [JS.orEmpty]. apply toLowerCase_idempotent.
Qed.

(** X7, used on the sample: "GAM" gives what "gAm" gives. *)
Lemma filter_text_case_is_ignored_witness :
  createStateUpdate (withFilterText Sample.chosenNarrowed (Some "GAM"))
  = createStateUpdate Sample.chosenNarrowed.
Proof.
  apply (proj1 (filter_text_case_is_ignored
                  Sample.Repo Sample.Repo_item Sample.chosenNarrowed)).
  reflexivity.
Defined.

(** ** The selected item across recomputations *)

Section SelectedItemFacts.

Context {T : Type} `{IFilterListItem T}.

(** What the reconciler computes, on any world. *)
Lemma componentDidUpdate_run {L : Type} (this : FilterList T)
    (prevProps : IFilterListProps T) (prevState : IFilterListState T)
    (w : World T L) :
  FilterList.componentDidUpdate this prevProps prevState w
  = if onSelectionChanged (this_props this)
       && JS.strictNe
            (itemIdAt (rows prevState) (selectedRow prevState))
            (itemIdAt (rows (state w)) (selectedRow (state w)))
       && JS.strictNe
            (selectedItemId (this_props this))
            (itemIdAt (rows (state w)) (selectedRow (state w)))
    then Ok (tt, logged w
                   (CallSelectionChanged
                      (itemAt (rows (state w)) (selectedRow (state w)))
                      (FilterSource
                         (JS.orEmpty (filterText (this_props this))))))
    else Ok (tt, w).
Proof.
  unfold FilterList.componentDidUpdate.
  destruct (onSelectionChanged (this_props this)); [|reflexivity].
  unfold bind at 1. unfold getState at 1.
  unfold bind at 1. rewrite getItemIdFromRowIndex_itemIdAt.
  unfold lift at 1.
  unfold bind at 1. rewrite getItemIdFromRowIndex_itemIdAt.
  unfold lift at 1.
  change (match selectedItem (this_props this) with
          | Some selectedItem => Some (id selectedItem)
          | None => None
          end) with (selectedItemId (this_props this)).
  cbn [andb].
  destruct (JS.strictNe _ _); [|reflexivity].
  destruct (JS.strictNe _ _); [|reflexivity].
  unfold bind. rewrite getItemFromRowIndex_itemAt. reflexivity.
Qed.

Lemma itemAt_nth (rs : list (IFilterListRow T)) (n : nat) (it : T) :
  nth_error rs n = Some (IFlattenedItem it) ->
  itemAt rs (Z.of_nat n) = Some it.
Proof.
  intros E. unfold itemAt.
  replace (Z.of_nat n <? 0) with false by (symmetry; apply Z.ltb_ge; lia).
  now rewrite Nat2Z.id, E.
Qed.

(** The first search finds a selected item that has a row. *)
Lemma selected_item_found (props : IFilterListProps T) (sel : T) :
  selectedItem props = Some sel ->
  In (IFlattenedItem sel) (rows (createStateUpdate props)) ->
  exists (n : nat) (it : T),
    selectedRow (createStateUpdate props) = Z.of_nat n /\
    nth_error (rows (createStateUpdate props)) n = Some (IFlattenedItem it) /\
    id it = id sel.
Proof.
  intros Hs Hin.
  rewrite selectedRow_createStateUpdate. cbv zeta. rewrite Hs.
  destruct (findIndex_cases (isSelectedItem sel)
              (rows (createStateUpdate props)))
    as [[_ F] | [n [E [[x [Ex Px]] _]]]].
  - specialize (F _ Hin). simpl in F. rewrite String.eqb_refl in F.
    discriminate.
  - rewrite E.
    replace (Z.of_nat n <? 0) with false by (symmetry; apply Z.ltb_ge; lia).
    destruct x as [g | it]; [discriminate|].
    exists n, it. repeat split; [exact Ex|].
    now apply String.eqb_eq.
Qed.

End SelectedItemFacts.

(** X8. A selected item that still has a row after a recomputation stays
    selected: the selected row is a row of an item with its id, and the
    reconciler, whatever the state before, notifies nobody. *)
Theorem visible_selected_item_stays_selected :
  forall (T : Type) (I : IFilterListItem T) (L : Type)
         (this : FilterList T) (prevProps : IFilterListProps T)
         (prevState : IFilterListState T) (w : World T L) (sel : T),
    selectedItem (this_props this) = Some sel ->
    In (IFlattenedItem sel) (rows (createStateUpdate (this_props this))) ->
    state w = createStateUpdate (this_props this) ->
    getItemIdFromRowIndex (rows (state w)) (selectedRow (state w))
    = Ok (Some (id sel))
    /\
    FilterList.componentDidUpdate this prevProps prevState w = Ok (tt, w).
Proof.
  intros T I L this prevProps prevState w sel Hs Hin Hw.
  destruct (selected_item_found _ sel Hs Hin) as [n [it [En [Hn Hid]]]].
  assert (New : itemIdAt (rows (state w)) (selectedRow (state w))
                = Some (id sel)).
  { rewrite Hw, En. unfold itemIdAt. rewrite (itemAt_nth _ _ _ Hn).
    simpl. now rewrite Hid. }
  split.
  - now rewrite getItemIdFromRowIndex_itemIdAt, New.
  - rewrite componentDidUpdate_run, New.
    unfold selectedItemId. rewrite Hs. simpl.
    rewrite String.eqb_refl. simpl. now rewrite andb_false_r.
Qed.

(** X8, used on the sample: "Beta" stays selected under the filter "a",
    whatever was selected before. *)
Lemma visible_selected_item_stays_selected_witness :
  FilterList.componentDidUpdate
    (Sample.derived (withFilterText Sample.chosen (Some "a")))
    Sample.headed (createStateUpdate Sample.headed)
    (Sample.arriving (withFilterText Sample.chosen (Some "a")))
  = Ok (tt, Sample.arriving (withFilterText Sample.chosen (Some "a"))).
Proof.
  apply (visible_selected_item_stays_selected
           Sample.Repo Sample.Repo_item unit
           (Sample.derived (withFilterText Sample.chosen (Some "a")))
           Sample.headed (createStateUpdate Sample.headed)
           (Sample.arriving (withFilterText Sample.chosen (Some "a")))
           Sample.beta eq_refl).
  - right. right. now left.
  - reflexivity.
Defined.

(** ** Rendering *)

Lemma at_nth_error {A : Type} (l : list A) (index : Z) (x : A) :
  JS.at_ l index = Some x -> nth_error l (Z.to_nat index) = Some x.
Proof.
  unfold JS.at_. destruct (0 <=? index); [trivial | discriminate].
Qed.

(** X9. Every row of the derived state is rendered by one of the caller's
    callbacks: [renderRow] on an index inside the rows calls the item
    renderer or, on a header row, the group-header renderer, which is then
    supplied, and never falls through to [null]; on an index outside the
    rows it faults. *)
Theorem derived_rows_are_rendered_by_the_caller :
  forall (T : Type) (I : IFilterListItem T) (this : FilterList T)
         (index : Z),
    let s := createStateUpdate (this_props this) in
    (0 <= index < JS.len (rows s) ->
     (exists it, FilterList.renderRow this s index = Ok (RenderItem it) /\
                 In (IFlattenedItem it) (rows s)) \/
     (exists header,
         FilterList.renderRow this s index = Ok (RenderGroupHeader header) /\
         renderGroupHeader (this_props this) = true))
    /\
    (~ 0 <= index < JS.len (rows s) ->
     FilterList.renderRow this s index = TypeError).
Proof.
  intros T I this index s. split.
  - intros R. destruct (at_in_range (rows s) index R) as [row E].
    unfold FilterList.renderRow. rewrite E.
    apply at_nth_error in E. destruct row as [header | it].
    + right. exists header. subst s.
      rewrite rows_createStateUpdate in E.
      apply header_in_flattenRows in E as [Hh _].
      rewrite Hh. split; reflexivity.
    + left. exists it. split; [reflexivity|].
      eapply nth_error_In. exact E.
  - intros R. unfold FilterList.renderRow.
    now rewrite (at_out_of_range (rows s) index R).
Qed.

(** X9, used on the sample: row 3 is rendered as the header "other". *)
Lemma derived_rows_are_rendered_by_the_caller_witness :
  exists header,
    FilterList.renderRow (Sample.derived Sample.headed)
                         (createStateUpdate Sample.headed) 3
    = Ok (RenderGroupHeader header).
Proof.
  destruct (derived_rows_are_rendered_by_the_caller
              Sample.Repo Sample.Repo_item (Sample.derived Sample.headed) 3)
    as [Inside _].
  destruct (Inside ltac:(vm_compute; split; [discriminate | reflexivity]))
    as [[it [E _]] | [header [E _]]].
  - discriminate E.
  - exists header. exact E.
Defined.

(** X10. The caller's placeholder replaces the list exactly when a
    placeholder renderer is supplied and no item of any group matches the
    filter; while it does, the list handle is null and a key in the filter
    input reaches nobody: the caller's key-down handler is not called and
    the default is not suppressed. *)
Theorem placeholder_iff_nothing_matches :
  forall (T : Type) (I : IFilterListItem T) (L : Type)
         (this : FilterList T) (w : World T L) (key : string),
    let props := this_props this in
    (renderContent props (createStateUpdate props) = None <->
     renderNoItems props = true /\
     forall g i, In g (groups props) -> In i (items g) ->
                 matchesFilter
                   (JS.toLowerCase (JS.orEmpty (filterText props))) i
                 = false)
    /\
    (this_list this = renderContent props (createStateUpdate props) ->
     renderContent props (createStateUpdate props) = None ->
     FilterList.onKeyDown this key w = Ok (tt, w)).
Proof.
  intros T I L this w key props. split.
  - unfold renderContent. rewrite <- rows_empty_iff.
    destruct (rows (createStateUpdate props)) as [|row rs]; cbn.
    + destruct (renderNoItems props); split;
        try discriminate; try tauto.
      intros [E _]. discriminate.
    + split; [discriminate|]. intros [_ E]. discriminate.
  - intros Hlist Hnone. unfold FilterList.onKeyDown.
    now rewrite Hlist, Hnone.
Qed.

(** X10, used on the sample: under "xyz" with a placeholder renderer,
    Enter does nothing at all. *)
Lemma placeholder_iff_nothing_matches_witness :
  FilterList.onKeyDown
    {| this_props :=
         {| groups := [Sample.greetings]; selectedItem := None;
            renderGroupHeader := true; onItemClick := true;
            onSelectionChanged := true;
            onFilterKeyDown := Some (fun _ => true);
            filterText := Some "xyz"; onFilterTextChanged := true;
            disabled := false; renderNoItems := true |};
       this_list := None;
       this_filterInput := true |}
    "Enter"
    {| state := {| rows := []; selectedRow := -1 |};
       defaultPrevented := false;
       calls := @nil (Effect Sample.Repo unit) |}
  = Ok (tt, {| state := {| rows := []; selectedRow := -1 |};
               defaultPrevented := false;
               calls := [] |}).
Proof.
  apply (proj2 (placeholder_iff_nothing_matches
                  Sample.Repo Sample.Repo_item unit _ _ "Enter"));
    reflexivity.
Defined.

(** ** Keys, once more *)

Lemma strictEqNum_true (n : Z) (m : option Z) :
  JS.strictEqNum n m = true <-> m = Some n.
Proof.
  destruct m as [k|]; simpl.
  - rewrite Z.eqb_eq. split; [now intros -> | now intros [= ->]].
  - split; discriminate.
Qed.

(** X11. A key pressed on a row moves the focus to the filter input, and
    cancels the list's handling, only at a boundary: with both handles
    there, ArrowUp on the first selectable row or ArrowDown on the last.
    Any other key on any other row leaves the event and the component as
    they are. *)
Theorem row_keys_move_focus_only_at_boundary :
  forall (T : Type) (I : IFilterListItem T) (L : Type)
         (this : FilterList T) (w : World T L) (row : Z) (key : string),
    let atBoundary :=
      exists l,
        this_list this = Some l /\ this_filterInput this = true /\
        ((key = "ArrowUp" /\ nextSelectableRow l down (-1) = Some row) \/
         (key = "ArrowDown" /\ nextSelectableRow l up 0 = Some row)) in
    (atBoundary ->
     FilterList.onRowKeyDown this row key w
     = Ok (tt, logged (prevented w) FocusInput))
    /\
    (~ atBoundary -> FilterList.onRowKeyDown this row key w = Ok (tt, w)).
Proof.
  intros T I L this w row key atBoundary. subst atBoundary.
  unfold FilterList.onRowKeyDown.
  destruct (this_list this) as [l|].
  - destruct (this_filterInput this).
    + destruct (String.eqb_spec key "ArrowUp") as [Ku | Ku].
      * destruct (JS.strictEqNum row (nextSelectableRow l down (-1)))
          eqn:Ef; cbn [andb].
        -- split; [reflexivity|]. intros N. exfalso. apply N.
           exists l. apply strictEqNum_true in Ef. tauto.
        -- subst key. cbn. split; [|reflexivity].
           intros [l' [[= <-] [_ [[_ Hf] | [Hk _]]]]].
           ++ apply strictEqNum_true in Hf. congruence.
           ++ discriminate.
      * cbn [andb].
        destruct (String.eqb_spec key "ArrowDown") as [Kd | Kd].
        -- destruct (JS.strictEqNum row (nextSelectableRow l up 0))
             eqn:El; cbn [andb].
           ++ split; [reflexivity|]. intros N. exfalso. apply N.
              exists l. apply strictEqNum_true in El. tauto.
           ++ split; [|reflexivity].
              intros [l' [[= <-] [_ [[Hk _] | [_ Hl]]]]].
              ** contradiction.
              ** apply strictEqNum_true in Hl. congruence.
        -- cbn [andb]. split; [|reflexivity].
           intros [l' [_ [_ [[Hk _] | [Hk _]]]]]; contradiction.
    + split.
      * intros [l' [_ [F _]]]. discriminate.
      * intros _.
        match goal with
        | |- (if ?b then _ else _) w = _ => destruct b; reflexivity
        end.
  - split; [|reflexivity]. intros [l [F _]]. discriminate.
Qed.

(** X11, used on the sample: ArrowUp on row 2, which is not the first
    selectable row, is left to the list. *)
Lemma row_keys_move_focus_only_at_boundary_witness :
  FilterList.onRowKeyDown (Sample.derived Sample.headed) 2 "ArrowUp"
                          (Sample.arriving Sample.headed)
  = Ok (tt, Sample.arriving Sample.headed).
Proof.
  apply (proj2 (row_keys_move_focus_only_at_boundary
                  Sample.Repo Sample.Repo_item unit
                  (Sample.derived Sample.headed)
                  (Sample.arriving Sample.headed) 2 "ArrowUp")).
  intros [l [[= <-] [_ [[_ F] | [F _]]]]]; discriminate.
Defined.

(** X12. A key in the filter input other than ArrowDown, ArrowUp and Enter
    only reaches the caller's key-down handler: on a mounted list and a
    fresh event the state, the focus and the event's default are left
    alone unless that handler cancels the event. *)
Theorem other_keys_only_reach_the_caller :
  forall (T : Type) (I : IFilterListItem T) (L : Type)
         (this : FilterList T) (l : List_) (w : World T L) (key : string),
    this_list this = Some l ->
    defaultPrevented w = false ->
    key <> "ArrowDown" -> key <> "ArrowUp" -> key <> "Enter" ->
    FilterList.onKeyDown this key w
    = Ok (tt, if callerCancels (this_props this) key
              then prevented (heard (this_props this) key w)
              else heard (this_props this) key w).
Proof.
  intros T I L this l w key Hlist Hfresh Kd Ku Ke.
  apply String.eqb_neq in Kd, Ku, Ke.
  unfold FilterList.onKeyDown, callerCancels, heard, prevented.
  rewrite Hlist. destruct w as [s0 dp cs]. cbn in Hfresh. subst dp.
  destruct (onFilterKeyDown (this_props this)) as [handler|].
  - run_method. destruct (handler key); cbn; [reflexivity|].
    now rewrite Kd, Ku, Ke.
  - run_method. now rewrite Kd, Ku, Ke.
Qed.

(** X12, used on the sample: the letter "a" typed into the filter input
    changes nothing. *)
Lemma other_keys_only_reach_the_caller_witness :
  FilterList.onKeyDown (Sample.derived Sample.headed) "a"
                       (Sample.arriving Sample.headed)
  = Ok (tt, Sample.arriving Sample.headed).
Proof.
  destruct (this_list (Sample.derived Sample.headed)) as [l|] eqn:Hlist;
    [|discriminate].
  apply (other_keys_only_reach_the_caller
           Sample.Repo Sample.Repo_item unit
           (Sample.derived Sample.headed) l
           (Sample.arriving Sample.headed) "a" Hlist eq_refl);
    discriminate.
Defined.

(** X13. A key that the caller's key-down handler cancels is not acted on,
    whichever key it is: on a mounted list the handler is called, the
    event stays cancelled, and neither the state nor the focus changes. *)
Theorem cancelled_key_is_not_acted_on :
  forall (T : Type) (I : IFilterListItem T) (L : Type)
         (this : FilterList T) (l : List_) (w : World T L) (key : string),
    this_list this = Some l ->
    callerCancels (this_props this) key = true ->
    FilterList.onKeyDown this key w
    = Ok (tt, prevented (logged w (CallFilterKeyDown key))).
Proof.
  intros T I L this l w key Hlist Hcancel.
  unfold FilterList.onKeyDown, callerCancels, prevented, logged in *.
  rewrite Hlist.
  destruct (onFilterKeyDown (this_props this)) as [handler|];
    [|discriminate].
  run_method. rewrite Hcancel. reflexivity.
Qed.

(** X13, used on the sample: Enter, cancelled by the caller, clicks
    nothing. *)
Lemma cancelled_key_is_not_acted_on_witness :
  FilterList.onKeyDown (Sample.derived (Sample.cancelling Sample.headed))
                       "Enter"
                       (Sample.arriving (Sample.cancelling Sample.headed))
  = Ok (tt, prevented
              (logged (Sample.arriving (Sample.cancelling Sample.headed))
                      (CallFilterKeyDown "Enter"))).
Proof.
  destruct (this_list (Sample.derived (Sample.cancelling Sample.headed)))
    as [l|] eqn:Hlist; [|discriminate].
  apply (cancelled_key_is_not_acted_on
           Sample.Repo Sample.Repo_item unit
           (Sample.derived (Sample.cancelling Sample.headed)) l
           (Sample.arriving (Sample.cancelling Sample.headed))
           "Enter" Hlist eq_refl).
Defined.

(** X14. ArrowDown and ArrowUp in the filter input always suppress the
    default on a mounted list and a fresh event that the caller lets
    through, and never touch the rows; without rows, or when the list has
    no selectable row to offer, they do nothing else: the selected row and
    the focus stay. *)
Theorem arrow_keys_always_suppress_default :
  forall (T : Type) (I : IFilterListItem T) (L : Type)
         (this : FilterList T) (l : List_) (w : World T L),
    this_list this = Some l ->
    defaultPrevented w = false ->
    (callerCancels (this_props this) "ArrowDown" = false ->
     exists w',
       FilterList.onKeyDown this "ArrowDown" w = Ok (tt, w') /\
       defaultPrevented w' = true /\
       rows (state w') = rows (state w) /\
       (rows (state w) = [] \/ nextSelectableRow l down (-1) = None ->
        w' = prevented (heard (this_props this) "ArrowDown" w)))
    /\
    (callerCancels (this_props this) "ArrowUp" = false ->
     exists w',
       FilterList.onKeyDown this "ArrowUp" w = Ok (tt, w') /\
       defaultPrevented w' = true /\
       rows (state w') = rows (state w) /\
       (rows (state w) = [] \/ nextSelectableRow l up 0 = None ->
        w' = prevented (heard (this_props this) "ArrowUp" w))).
Proof.
  intros T I L this l w Hlist Hfresh.
  assert (Hlen : rows (state w) = [] ->
                 (0 <? JS.len (rows (state w))) = false).
  { intros E. now rewrite E. }
  split; intros Hcancel.
  - run_onKeyDown Hlist Hcancel Hfresh; cbn in Hlen;
      (destruct (0 <? JS.len (rows s0)) eqn:Len;
       [destruct (nextSelectableRow l down (-1)) as [r|] eqn:Next|];
       cbn; eexists; (split; [reflexivity|]);
       repeat split;
       try (intros [E | E]; [apply Hlen in E|]; congruence)).
  - run_onKeyDown Hlist Hcancel Hfresh; cbn in Hlen;
      (destruct (0 <? JS.len (rows s0)) eqn:Len;
       [destruct (nextSelectableRow l up 0) as [r|] eqn:Next|];
       cbn; eexists; (split; [reflexivity|]);
       repeat split;
       try (intros [E | E]; [apply Hlen in E|]; congruence)).
Qed.

(** X14, used on the sample: ArrowDown without rows only suppresses the
    default. *)
Lemma arrow_keys_always_suppress_default_witness :
  exists w',
    FilterList.onKeyDown
      (Sample.derived (withFilterText Sample.headed (Some "xyz")))
      "ArrowDown"
      (Sample.arriving (withFilterText Sample.headed (Some "xyz")))
    = Ok (tt, w') /\
    defaultPrevented w' = true /\
    selectedRow (state w') = -1 /\ calls w' = [].
Proof.
  destruct (this_list
              (Sample.derived (withFilterText Sample.headed (Some "xyz"))))
    as [l|] eqn:Hlist; [|discriminate].
  destruct (arrow_keys_always_suppress_default
              Sample.Repo Sample.Repo_item unit
              (Sample.derived (withFilterText Sample.headed (Some "xyz")))
              l
              (Sample.arriving (withFilterText Sample.headed (Some "xyz")))
              Hlist eq_refl)
    as [Down _].
  destruct (Down eq_refl) as [w' [Run [Hp [_ Idle]]]].
  exists w'. split; [exact Run|]. split; [exact Hp|].
  rewrite (Idle (or_introl eq_refl)). split; reflexivity.
Defined.

(** X15. No handler of a key, a click or a list selection ever changes the
    rows: when it returns, the rows are those it found, the log of calls
    has only grown, and an event that was cancelled stays cancelled.  The
    key handler of the list and the click handler leave the whole state
    alone; a list selection changes the selected row only, to the index
    given. *)
Theorem handlers_never_change_the_rows :
  forall (T : Type) (I : IFilterListItem T) (L : Type)
         (this : FilterList T) (w w' : World T L),
    (forall key,
        FilterList.onKeyDown this key w = Ok (tt, w') ->
        rows (state w') = rows (state w) /\
        (defaultPrevented w = true -> defaultPrevented w' = true) /\
        exists more, calls w' = calls w ++ more)
    /\
    (forall row key,
        FilterList.onRowKeyDown this row key w = Ok (tt, w') ->
        state w' = state w /\
        (defaultPrevented w = true -> defaultPrevented w' = true) /\
        exists more, calls w' = calls w ++ more)
    /\
    (forall index,
        FilterList.onRowClick this index w = Ok (tt, w') ->
        state w' = state w /\
        defaultPrevented w' = defaultPrevented w /\
        exists more, calls w' = calls w ++ more)
    /\
    (forall index source,
        FilterList.onSelectionChanged this index source w = Ok (tt, w') ->
        rows (state w') = rows (state w) /\
        selectedRow (state w') = index /\
        defaultPrevented w' = defaultPrevented w /\
        exists more, calls w' = calls w ++ more).
Proof.
  intros T I L this w w'. destruct w as [s0 dp cs].
  split; [|split; [|split]].
  - intros key Run. unfold FilterList.onKeyDown in Run.
    destruct (this_list this) as [l|].
    + unfold FilterList.selectAndFocus, FilterList.onRowClick in Run.
      destruct (nextSelectableRow l down (-1)) as [first|];
        destruct (nextSelectableRow l up 0) as [last|];
        (destruct (onFilterKeyDown (this_props this)) as [handler|];
         [destruct (handler key)|]); destruct dp;
        revert Run; run_method; intros Run; split_run Run;
        injection Run as <-; cbn; repeat split; try log_grows;
        try discriminate.
    + injection Run as <-. cbn. repeat split; [tauto | log_grows].
  - intros row key Run. unfold FilterList.onRowKeyDown in Run.
    destruct (this_list this) as [l|].
    + revert Run; run_method; intros Run; split_run Run;
        injection Run as <-; cbn; repeat split; try log_grows; tauto.
    + injection Run as <-. cbn. repeat split; [tauto | log_grows].
  - intros index Run. unfold FilterList.onRowClick in Run.
    revert Run; run_method; intros Run; split_run Run;
      injection Run as <-; cbn; repeat split; log_grows.
  - intros index source Run. unfold FilterList.onSelectionChanged in Run.
    revert Run; run_method; intros Run; split_run Run;
      injection Run as <-; cbn; repeat split; log_grows.
Qed.

(** X15, used on the sample: ArrowDown in the filter input leaves the five
    rows as they are. *)
Lemma handlers_never_change_the_rows_witness :
  rows (state (prevented
                 (logged (selecting (Sample.arriving Sample.headed) 1)
                         FocusList)))
  = rows (state (Sample.arriving Sample.headed)).
Proof.
  apply (proj1 (handlers_never_change_the_rows
                  Sample.Repo Sample.Repo_item unit
                  (Sample.derived Sample.headed)
                  (Sample.arriving Sample.headed)
                  (prevented
                     (logged (selecting (Sample.arriving Sample.headed) 1)
                             FocusList)))
               "ArrowDown" eq_refl).
Defined.

(** X16. A selection made in the list on an item row stores the index and
    hands that row's item, with the list's source untouched, to the
    selection-changed callback; the guarded lookup at the new selected row
    finds the same item.  When the caller adopts the selection - the
    selected-item prop gets that id - the reconciler adds nothing; when
    the caller keeps another selected item and the item differs from the
    one selected before, the reconciler reports it a second time, as a
    filter-driven change.  On a header row the index is stored and nobody
    is notified. *)
Theorem list_selection_is_stored_and_reported :
  forall (T : Type) (I : IFilterListItem T) (L : Type)
         (this : FilterList T) (w : World T L) (index : Z)
         (source : SelectionSource L),
    onSelectionChanged (this_props this) = true ->
    (forall it,
        JS.at_ (rows (state w)) index = Some (IFlattenedItem it) ->
        let w1 := logged (selecting w index)
                         (CallSelectionChanged (Some it) source) in
        FilterList.onSelectionChanged this index source w = Ok (tt, w1) /\
        getItemFromRowIndex (rows (state w1)) (selectedRow (state w1))
        = Ok (Some it) /\
        (forall prevProps adopted,
            id adopted = id it ->
            FilterList.componentDidUpdate
              (withProps this
                 (withSelectedItem (this_props this) (Some adopted)))
              prevProps (state w) w1
            = Ok (tt, w1)) /\
        (forall prevProps,
            itemIdAt (rows (state w)) (selectedRow (state w))
            <> Some (id it) ->
            selectedItemId (this_props this) <> Some (id it) ->
            FilterList.componentDidUpdate this prevProps (state w) w1
            = Ok (tt, logged w1
                        (CallSelectionChanged (Some it)
                           (FilterSource
                              (JS.orEmpty
                                 (filterText (this_props this))))))))
    /\
    (forall header,
        JS.at_ (rows (state w)) index = Some (IFlattenedGroup header) ->
        FilterList.onSelectionChanged this index source w
        = Ok (tt, selecting w index)).
Proof.
  intros T I L this w index source On. split.
  - intros it Hat w1.
    assert (Hitem : itemAt (rows (state w1)) (selectedRow (state w1))
                    = Some it).
    { subst w1. cbn. now rewrite at_itemAt, Hat. }
    assert (Hid : itemIdAt (rows (state w1)) (selectedRow (state w1))
                  = Some (id it)).
    { unfold itemIdAt. now rewrite Hitem. }
    split; [|split; [|split]].
    + unfold FilterList.onSelectionChanged. run_method.
      rewrite On. cbn. now rewrite Hat.
    + now rewrite getItemFromRowIndex_itemAt, Hitem.
    + intros prevProps adopted Hadopt.
      rewrite componentDidUpdate_run, Hid.
      cbn [withProps this_props withSelectedItem selectedItemId
           selectedItem option_map].
      rewrite Hadopt. cbn [JS.strictNe].
      rewrite String.eqb_refl. cbn. now rewrite !andb_false_r.
    + intros prevProps Hold Hprop.
      rewrite componentDidUpdate_run, Hid, Hitem, On.
      apply strictNe_true in Hold. apply strictNe_true in Hprop.
      now rewrite Hold, Hprop.
  - intros header Hat.
    unfold FilterList.onSelectionChanged. run_method.
    rewrite On. cbn. now rewrite Hat.
Qed.

(** X16, used on the sample: a click on row 4 selects "Gamma" and reports
    it with the list's source. *)
Lemma list_selection_is_stored_and_reported_witness :
  FilterList.onSelectionChanged (Sample.derived Sample.headed) 4
                                (ListSource tt)
                                (Sample.arriving Sample.headed)
  = Ok (tt, logged (selecting (Sample.arriving Sample.headed) 4)
              (CallSelectionChanged (Some Sample.gamma) (ListSource tt))).
Proof.
  apply (proj1 (list_selection_is_stored_and_reported
                  Sample.Repo Sample.Repo_item unit
                  (Sample.derived Sample.headed)
                  (Sample.arriving Sample.headed) 4 (ListSource tt)
                  eq_refl)
               Sample.gamma eq_refl).
Defined.

(** X17. A click on a row inside the rows hands the item that the guarded
    lookup finds at that row to the item-click callback, once; a click on
    a header row, or without an item-click callback, does nothing. *)
Theorem row_click_reports_the_item_of_the_row :
  forall (T : Type) (I : IFilterListItem T) (L : Type)
         (this : FilterList T) (w : World T L) (index : Z),
    0 <= index < JS.len (rows (state w)) ->
    exists found,
      getItemFromRowIndex (rows (state w)) index = Ok found /\
      FilterList.onRowClick this index w
      = Ok (tt, match found with
                | Some it =>
                    if onItemClick (this_props this)
                    then logged w (CallItemClick it)
                    else w
                | None => w
                end).
Proof.
  intros T I L this w index R.
  exists (itemAt (rows (state w)) index).
  split; [apply getItemFromRowIndex_itemAt|].
  destruct (at_in_range _ index R) as [row E].
  rewrite at_itemAt, E.
  unfold FilterList.onRowClick.
  destruct (onItemClick (this_props this)); run_method.
  - rewrite E. now destruct row.
  - now destruct row.
Qed.

(** X17, used on the sample: a click on the header row 0 does nothing. *)
Lemma row_click_reports_the_item_of_the_row_witness :
  FilterList.onRowClick (Sample.derived Sample.headed) 0
                        (Sample.arriving Sample.headed)
  = Ok (tt, Sample.arriving Sample.headed).
Proof.
  destruct (row_click_reports_the_item_of_the_row
              Sample.Repo Sample.Repo_item unit
              (Sample.derived Sample.headed)
              (Sample.arriving Sample.headed) 0
              ltac:(vm_compute; split; [discriminate | reflexivity]))
    as [found [Lookup Click]].
  injection Lookup as <-. exact Click.
Defined.

(** X18. The handles gate the key handlers.  A freshly constructed
    component, and one whose list ref has been reset to null, ignore every
    key in the filter input and on a row; one whose input ref has been
    reset to null leaves every key on a row to the list.  Setting the
    input ref selects the input's text exactly when the input is there and
    the filter text is a non-empty string. *)
Theorem handles_gate_the_key_handlers :
  forall (T : Type) (I : IFilterListItem T) (L : Type)
         (this : FilterList T) (w : World T L) (row : Z) (key : string),
    (FilterList.onKeyDown (fst (FilterList.constructor (this_props this)))
                          key w = Ok (tt, w) /\
     FilterList.onRowKeyDown
       (fst (FilterList.constructor (this_props this))) row key w
     = Ok (tt, w))
    /\
    (FilterList.onKeyDown (FilterList.onListRef this None) key w
     = Ok (tt, w) /\
     FilterList.onRowKeyDown (FilterList.onListRef this None) row key w
     = Ok (tt, w))
    /\
    FilterList.onRowKeyDown
      (fst (FilterList.onInputRef (ListSelectionSource := L) this false))
      row key w
    = Ok (tt, w)
    /\
    (forall instance,
        snd (FilterList.onInputRef this instance) w
        = Ok (tt, logged w SelectInput)
        <->
        instance = true /\
        exists filter, filterText (this_props this) = Some filter /\
                       filter <> EmptyString).
Proof.
  intros T I L this w row key.
  split; [split; reflexivity|].
  split; [split; reflexivity|].
  split.
  - unfold FilterList.onRowKeyDown, FilterList.onInputRef. cbn.
    destruct (this_list this) as [l|]; [|reflexivity].
    match goal with
    | |- (if ?b then _ else _) w = _ => destruct b; reflexivity
    end.
  - intros instance. unfold FilterList.onInputRef. cbn [snd].
    assert (Differs : forall x : World T L, Ok (tt, x)
                                            <> Ok (tt, logged x SelectInput)).
    { intros [s0 dp cs] E. injection E as E. unfold JS.push in E.
      apply (f_equal (@List.length _)) in E.
      rewrite length_app in E. simpl in E. lia. }
    destruct instance; cbn [andb].
    + destruct (filterText (this_props this)) as [filter|].
      * destruct filter as [|c filter]; cbn.
        -- split.
           ++ intros E. exfalso. exact (Differs w E).
           ++ intros [_ [f [[= <-] N]]]. contradiction.
        -- split; [|reflexivity]. intros _. split; [reflexivity|].
           exists (String c filter). split; [reflexivity | discriminate].
      * split.
        -- intros E. exfalso. exact (Differs w E).
        -- intros [_ [f [F _]]]. discriminate.
    + split.
      * intros E. exfalso. exact (Differs w E).
      * intros [F _]. discriminate.
Qed.

(** X18, used on the sample: with the filter text "gAm" a mounted input
    has its text selected. *)
Lemma handles_gate_the_key_handlers_witness :
  snd (FilterList.onInputRef (Sample.derived Sample.plainNarrowed) true)
      (Sample.arriving Sample.plainNarrowed)
  = Ok (tt, logged (Sample.arriving Sample.plainNarrowed) SelectInput).
Proof.
  destruct (handles_gate_the_key_handlers
              Sample.Repo Sample.Repo_item unit
              (Sample.derived Sample.plainNarrowed)
              (Sample.arriving Sample.plainNarrowed) 0 "a")
    as [_ [_ [_ Selects]]].
  apply Selects. split; [reflexivity|].
  exists "gAm". split; [reflexivity | discriminate].
Defined.
